(** * AgentRPC node SDK: the facade ([agentrpc.ts]) and the polling agent
    ([polling.ts]) as a shallow embedding.

    The TypeScript sources are effectful: they log, talk to a coordinator over
    a JSON-RPC client, sleep and run user handlers.  Every such effect is
    recorded, in program order, as an [Event] of a [Trace]; a computation is a
    function from the state it starts in to its completion (normal or abrupt,
    as a JavaScript [throw]) and the state it leaves.  The coordinator, the
    validation library and the error serializer are collaborators of the code,
    not part of it: they appear as arguments (the client) or as variables of a
    section. *)

From Stdlib Require Import String Ascii List ZArith Bool Lia DecimalString.
From Stdlib Require Import Permutation.
Import ListNotations.
Local Open Scope string_scope.
Local Open Scope list_scope.
Set Warnings "-register-all".

(** ** JavaScript values and strings *)

(** A value as it arrives over JSON-RPC, with [undefined] for a property that
    is absent ([input?: unknown]). *)
Inductive JsValue : Type :=
| JUndefined
| JNull
| JBool (b : bool)
| JNum (n : Z)
| JStr (s : string)
| JArr (items : list JsValue)
| JObj (props : list (string * JsValue)).

(** [typeof v]. *)
Definition typeof (v : JsValue) : string :=
  match v with
  | JUndefined => "undefined"
  | JNull => "object"
  | JBool _ => "boolean"
  | JNum _ => "number"
  | JStr _ => "string"
  | JArr _ => "object"
  | JObj _ => "object"
  end.

(** [Array.isArray(v)]. *)
Definition Array_isArray (v : JsValue) : bool :=
  match v with JArr _ => true | _ => false end.

(** [v === null]. *)
Definition is_null (v : JsValue) : bool :=
  match v with JNull => true | _ => false end.

(** Truthiness of a string that may be absent: [undefined], [null] and the
    empty string are falsy. *)
Definition truthy (s : option string) : bool :=
  match s with
  | None => false
  | Some s => negb (s =? "")
  end.

(** [s || d] at type string. *)
Definition or_default (s : option string) (d : string) : string :=
  match s with
  | None => d
  | Some s => if s =? "" then d else s
  end.

(** [s.split(sep)] for a one-character separator: the pieces between the
    occurrences of [sep], empty pieces kept; never the empty array. *)
Fixpoint split (sep : ascii) (s : string) : list string :=
  match s with
  | EmptyString => [EmptyString]
  | String c rest =>
      if Ascii.eqb c sep then EmptyString :: split sep rest
      else match split sep rest with
           | piece :: pieces => String c piece :: pieces
           | [] => [String c EmptyString]
           end
  end.

(** [xs.join(sep)]. *)
Fixpoint join (sep : string) (xs : list string) : string :=
  match xs with
  | [] => ""
  | [x] => x
  | x :: rest => x ++ sep ++ join sep rest
  end.

(** The decimal numeral of a counter, as a template literal prints it. *)
Definition decimal (n : nat) : string := NilZero.string_of_uint (Nat.to_uint n).

(** ** Thrown values, handlers and tool registrations *)

(** One issue of a validation error: where and what. *)
Record ZodIssue : Type := mkZodIssue {
  issue_path : list JsValue;
  issue_message : string
}.

(** What a [throw] can carry. *)
Inductive Thrown : Type :=
| Error (message : string)
| TypeError (message : string)
| AgentRPCError (message : string)
| ZodError (errors : list ZodIssue)
| ThrownValue (v : JsValue).

(** [e instanceof AgentRPCError]: a configuration error. *)
Definition is_AgentRPCError (e : Thrown) : bool :=
  match e with AgentRPCError _ => true | _ => false end.

(** How a call of a handler settles. *)
Inductive Settled : Type :=
| Returned (v : JsValue)
| Threw (e : Thrown).

(** The [handler] property of a registration: a function, or (the type
    annotation notwithstanding, [register] checks) some other value. *)
Inductive Handler : Type :=
| Callable (f : list JsValue -> Settled)
| NotCallable (v : JsValue).

(** [typeof h]. *)
Definition typeof_handler (h : Handler) : string :=
  match h with
  | Callable _ => "function"
  | NotCallable v => typeof v
  end.

(** [z.ZodTypeAny | JsonSchemaInput]: the two kinds of schema, their content
    opaque to this code. *)
Inductive Schema : Type :=
| ZodSchema (def : JsValue)
| JsonSchema (doc : JsValue).

(** Modelled from the spec: [isZodType] of [./util], which is not among the
    sources; the check that tells the two kinds of schema apart. *)
Definition isZodType (s : Schema) : bool :=
  match s with ZodSchema _ => true | JsonSchema _ => false end.

(** A schema as the value it is. *)
Definition schema_value (s : Schema) : JsValue :=
  match s with ZodSchema def => def | JsonSchema doc => doc end.

(** [ToolRegistrationInput]. *)
Record ToolRegistrationInput : Type := mkTool {
  name : string;
  handler : Handler;
  schema : Schema;
  config : JsValue;
  description : option string
}.

(** [JobMessage]. *)
Record JobMessage : Type := mkJob {
  id : string;
  function : string;
  input : JsValue
}.

(** Modelled from the spec: the [Result] type of [execute-fn.ts], which is not
    among the sources.  The spec's data model gives it as
    [{type: one of {success, rejection}, content, functionExecutionTime}]. *)
Inductive ResultType : Type := success | rejection.

Record Result : Type := mkResult {
  type : ResultType;
  content : JsValue;
  functionExecutionTime : Z
}.

(** ** Requests, replies and the trace of effects *)

(** One entry of [createMachine]'s tool list. *)
Record ToolMeta : Type := mkToolMeta {
  meta_name : string;
  meta_description : option string;
  meta_schema : string;
  meta_config : JsValue
}.

(** The requests this code sends, each with its parameters. *)
Inductive Request : Type :=
| createMachine (tools : option (list ToolMeta))
| listJobs (clusterId tools status : string) (acknowledge : bool)
    (limit waitTime : Z)
| createJobResult (jobId clusterId : string) (result : JsValue)
    (resultType : ResultType) (meta_functionExecutionTime : Z)
| createJob (tool : string) (input : JsValue) (clusterId : string)
    (waitTime : Z)
| getJob (clusterId jobId : string) (waitTime : Z).

(** A value passed to the logger beside the message. *)
Inductive LogValue : Type :=
| LogJs (v : JsValue)
| LogResultType (t : ResultType)
| LogHandler (h : Handler)
| LogThrown (e : Thrown)
| LogStrings (xs : list string).

Inductive Event : Type :=
| EvLog (channel message : string) (payload : list (string * LogValue))
| EvValidate (schema : Schema) (args : JsValue)
| EvInvoke (h : Handler) (args : list JsValue)
| EvRequest (r : Request)
| EvSleep (ms : Z).

Definition Trace : Type := list Event.

(** The body of a [createJob] or [getJob] reply. *)
Record JobBody : Type := mkJobBody {
  body_id : string;
  body_status : option string;
  body_result : option string;
  body_resultType : option string
}.

(** ** Computations *)

Inductive Completion (A : Type) : Type :=
| Normal (a : A)
| Abrupt (e : Thrown).
Arguments Normal {A} a.
Arguments Abrupt {A} e.

(** A computation over a state [S]: the state survives a [throw]. *)
Definition Eff (S A : Type) : Type := S -> Completion A * S.

Definition ret {S A : Type} (a : A) : Eff S A := fun s => (Normal a, s).

Definition throw {S A : Type} (e : Thrown) : Eff S A := fun s => (Abrupt e, s).

Definition bind {S A B : Type} (m : Eff S A) (k : A -> Eff S B) : Eff S B :=
  fun s =>
    match m s with
    | (Normal a, s') => k a s'
    | (Abrupt e, s') => (Abrupt e, s')
    end.

(** [try { m } catch (e) { h(e) }]. *)
Definition try_catch {S A : Type} (m : Eff S A) (h : Thrown -> Eff S A)
  : Eff S A :=
  fun s =>
    match m s with
    | (Normal a, s') => (Normal a, s')
    | (Abrupt e, s') => h e s'
    end.

Declare Scope eff_scope.
Delimit Scope eff_scope with eff.
Notation "x <- m ;; k" := (bind m (fun x => k))
  (at level 61, m at next level, right associativity) : eff_scope.
Notation "m ;; k" := (bind m (fun _ => k))
  (at level 61, right associativity) : eff_scope.
Local Open Scope eff_scope.

(** Append one event to the trace. *)
Definition emit (e : Event) : Eff Trace unit := fun tr => (Normal tt, tr ++ [e]).

(** [debug(channel)]: the logger of one channel. *)
Definition debug (channel message : string)
    (payload : list (string * LogValue)) : Eff Trace unit :=
  emit (EvLog channel message payload).

(** [await new Promise((resolve) => setTimeout(resolve, ms))]. *)
Definition sleep (ms : Z) : Eff Trace unit := emit (EvSleep ms).

(** The JSON-RPC client, as this code uses it: one entry per method, each
    answering from the history so far and the request's parameters, with a
    reply or with a rejection.  [request] records the request and hands back
    the answer. *)
Record JSONRPCClient : Type := mkClient {
  on_createMachine : Trace -> Request -> Completion string;
  on_listJobs : Trace -> Request -> Completion (list JobMessage);
  on_createJobResult : Trace -> Request -> Completion unit;
  on_createJob : Trace -> Request -> Completion JobBody;
  on_getJob : Trace -> Request -> Completion JobBody
}.

Definition request {A : Type} (answer : Trace -> Request -> Completion A)
    (r : Request) : Eff Trace A :=
  fun tr => (answer tr r, tr ++ [EvRequest r]).

(** A computation on the trace, run where the state also holds an object. *)
Definition on_trace {X A : Type} (m : Eff Trace A) : Eff (X * Trace) A :=
  fun s =>
    let '(c, tr') := m (snd s) in (c, (fst s, tr')).

(** Read, and update, the object ([this]) of the state. *)
Definition this {X : Type} : Eff (X * Trace) X :=
  fun s => (Normal (fst s), s).

Definition update {X : Type} (f : X -> X) : Eff (X * Trace) unit :=
  fun s => (Normal tt, (f (fst s), snd s)).

(** What the two files import from the rest of the package and from
    libraries; none of it is among the sources. *)
Record Imports : Type := mkImports {
  (** [serializeError(e)] of [./serialize-error]. *)
  serializeError : Thrown -> JsValue;
  (** [validateFunctionArgs(schema, args)] of [./util]: [None] when it
      returns, [Some e] when it throws [e]. *)
  validateFunctionArgs : Schema -> JsValue -> option Thrown;
  (** [zodToJsonSchema] and [JSON.stringify]. *)
  zodToJsonSchema : Schema -> JsValue;
  JSON_stringify : JsValue -> string;
  (** [machineId()] of [./machine-id]. *)
  machine_id : string;
  (** The clock, read against the history so far. *)
  now : Trace -> Z
}.

(** ** [polling.ts] *)

Module polling.

Definition DEFAULT_RETRY_AFTER_SECONDS : Z := 0.

Definition log : string -> list (string * LogValue) -> Eff Trace unit :=
  debug "agentrpc:client:polling-agent".

(** The fields of a [PollingAgent]. *)
Record PollingAgent : Type := mkPollingAgent {
  clusterId : string;
  polling : bool;
  tools : list ToolRegistrationInput;
  jsonRpcClient : JSONRPCClient;
  retryAfter : Z
}.

(** [new PollingAgent(options)]. *)
Definition constructor (options_clusterId : string)
    (options_tools : list ToolRegistrationInput)
    (options_jsonRpcClient : JSONRPCClient) : PollingAgent :=
  {| clusterId := options_clusterId;
     polling := false;
     tools := options_tools;
     jsonRpcClient := options_jsonRpcClient;
     retryAfter := DEFAULT_RETRY_AFTER_SECONDS |}.

Definition set_polling (b : bool) (self : PollingAgent) : PollingAgent :=
  {| clusterId := clusterId self;
     polling := b;
     tools := tools self;
     jsonRpcClient := jsonRpcClient self;
     retryAfter := retryAfter self |}.

(** [Promise.allSettled] over the jobs of one batch: the status of each, none
    aborting the rest.  The jobs are run one after the other, in the order of
    the batch; the interleavings of jobs that are in flight together are not
    modelled. *)
Fixpoint allSettled (jobs : list (Eff Trace unit)) : Eff Trace (list string) :=
  match jobs with
  | [] => ret []
  | job :: rest =>
      fun tr =>
        let '(c, tr1) := job tr in
        let status :=
          match c with Normal _ => "fulfilled" | Abrupt _ => "rejected" end in
        (statuses <- allSettled rest ;; ret (status :: statuses)) tr1
  end.

Section WithImports.

Variable lib : Imports.

(** Modelled from the spec: [executeFn] of [execute-fn.ts], which is not among
    the sources.  [execute(handler, args) -> Result] always resolves: on
    success [{type: success, content: handler(...args),
    functionExecutionTime: elapsed}], on a thrown error
    [{type: rejection, content: serialized error,
    functionExecutionTime: elapsed}]; timing starts immediately before the
    invocation and stops on settlement. *)
Definition executeFn (h : Handler) (args : list JsValue) : Eff Trace Result :=
  fun tr =>
    let started := now lib tr in
    match h with
    | Callable f =>
        let tr1 := tr ++ [EvInvoke h args] in
        let elapsed := (now lib tr1 - started)%Z in
        match f args with
        | Returned v =>
            (Normal {| type := success; content := v;
                       functionExecutionTime := elapsed |}, tr1)
        | Threw e =>
            (Normal {| type := rejection; content := serializeError lib e;
                       functionExecutionTime := elapsed |}, tr1)
        end
    | NotCallable _ =>
        (Normal {| type := rejection;
                   content :=
                     serializeError lib (TypeError "fn is not a function");
                   functionExecutionTime := (now lib tr - started)%Z |}, tr)
    end.

(** The call [validateFunctionArgs(schema, args)]: recorded, and abrupt when
    the validator throws. *)
Definition validate (s : Schema) (args : JsValue) : Eff Trace unit :=
  emit (EvValidate s args) ;;
  match validateFunctionArgs lib s args with
  | None => ret tt
  | Some e => throw e
  end.

(** [errors.forEach(f)]. *)
Fixpoint forEach {A : Type} (f : A -> Eff Trace unit) (xs : list A)
  : Eff Trace unit :=
  match xs with
  | [] => ret tt
  | x :: rest => f x ;; forEach f rest
  end.

Definition invalid_format : string :=
  "Function was called with invalid invalid format. Expected an object.".

(** [PollingAgent.processCall]. *)
Definition processCall (self : PollingAgent) (call : JobMessage)
  : Eff Trace unit :=
  match find (fun fn => name fn =? function call) (tools self) with
  | None =>
      log "Received call for unknown function"
        [("function", LogJs (JStr (function call)))]
  | Some registration =>
      log "Executing job"
        [("id", LogJs (JStr (id call)));
         ("function", LogJs (JStr (function call)));
         ("registered", LogJs (JBool true))] ;;
      let onComplete (result : Result) : Eff Trace unit :=
        log "Persisting job result"
          [("id", LogJs (JStr (id call)));
           ("function", LogJs (JStr (function call)));
           ("resultType", LogResultType (type result));
           ("functionExecutionTime",
            LogJs (JNum (functionExecutionTime result)))] ;;
        request (on_createJobResult (jsonRpcClient self))
          (createJobResult (id call) (clusterId self) (content result)
             (type result) (functionExecutionTime result)) in
      let args := input call in
      log "Executing fn"
        [("id", LogJs (JStr (id call)));
         ("function", LogJs (JStr (function call)));
         ("registeredFn", LogHandler (handler registration));
         ("args", LogJs args)] ;;
      if negb (typeof args =? "object") || Array_isArray args || is_null args
      then
        log invalid_format [("function", LogJs (JStr (function call)))] ;;
        onComplete
          {| type := rejection;
             content := serializeError lib (Error invalid_format);
             functionExecutionTime := 0 |}
      else
        caught <-
          try_catch (validate (schema registration) args ;; ret None)
            (fun e =>
               match e with
               | ZodError errors =>
                   forEach
                     (fun error =>
                        log "Function input does not match schema"
                          [("function", LogJs (JStr (function call)));
                           ("path", LogJs (JArr (issue_path error)));
                           ("error", LogJs (JStr (issue_message error)))])
                     errors
               | _ => ret tt
               end ;;
               ret (Some e)) ;;
        match caught with
        | Some e =>
            onComplete
              {| type := rejection;
                 content := serializeError lib e;
                 functionExecutionTime := 0 |}
        | None =>
            result <- executeFn (handler registration) [args] ;;
            onComplete result
        end
  end.

(** [PollingAgent.pollIteration]. *)
Definition pollIteration (self : PollingAgent) : Eff Trace unit :=
  if clusterId self =? "" then
    throw (Error "Failed to poll. Could not find clusterId")
  else
    let tools := map name (tools self) in
    pollResult <-
      request (on_listJobs (jsonRpcClient self))
        (listJobs (clusterId self) (join "," tools) "pending" true 10 20) ;;
    results <- allSettled (map (processCall self) pollResult) ;;
    if (0 <? length results)%nat then
      log "Completed poll iteration" [("results", LogStrings results)]
    else ret tt.

(** [PollingAgent.stop]. *)
Definition stop : Eff (PollingAgent * Trace) unit :=
  on_trace (log "Stopping polling agent" []) ;;
  update (set_polling false).

(** What the application does to the agent while the loop is suspended in
    a pass: for this code a call of [stop()], or nothing.  [stopped] tells
    which, from the history up to the end of the pass. *)
Definition suspended (stopped : Trace -> bool)
  : Eff (PollingAgent * Trace) unit :=
  fun s => if stopped (snd s) then stop s else ret tt s.

(** The body of the [while] of [runLoop], for one pass: the iteration inside
    its [try], the sleep, and what happened meanwhile.  It yields the failure
    count the next pass starts with. *)
Definition loopBody (stopped : Trace -> bool) (failureCount : nat)
  : Eff (PollingAgent * Trace) nat :=
  self <- this ;;
  failureCount <-
    try_catch
      (on_trace (pollIteration self) ;;
       if (0 <? failureCount)%nat then
         on_trace
           (log ("Poll iteration recovered after " ++ decimal failureCount
                 ++ " failures") []) ;;
         ret 0%nat
       else ret failureCount)
      (fun e =>
         on_trace
           (log "Failed poll iteration"
              [("failureCount", LogJs (JNum (Z.of_nat failureCount)));
               ("error", LogThrown e)]) ;;
         ret (S failureCount)) ;;
  on_trace (sleep (retryAfter self * 1000)) ;;
  suspended stopped ;;
  ret failureCount.

(** The [while (this.polling)] of [runLoop], for at most [fuel] passes: no
    completion when the loop is still running after them. *)
Fixpoint runLoop_while (stopped : Trace -> bool) (fuel : nat)
    (failureCount : nat) (s : PollingAgent * Trace)
  : option (Completion unit) * (PollingAgent * Trace) :=
  if polling (fst s) then
    match fuel with
    | O => (None, s)
    | S fuel' =>
        match loopBody stopped failureCount s with
        | (Normal failureCount', s') =>
            runLoop_while stopped fuel' failureCount' s'
        | (Abrupt e, s') => (Some (Abrupt e), s')
        end
    end
  else (Some (Normal tt), s).

(** [PollingAgent.runLoop]. *)
Definition runLoop (stopped : Trace -> bool) (fuel : nat)
    (s : PollingAgent * Trace)
  : option (Completion unit) * (PollingAgent * Trace) :=
  runLoop_while stopped fuel 0 (set_polling true (fst s), snd s).

(** [registerMachine]. *)
Definition registerMachine (client : JSONRPCClient)
    (tools : option (list ToolRegistrationInput)) : Eff Trace string :=
  log "registering machine"
    [("tools",
      match tools with
      | Some tools => LogStrings (map name tools)
      | None => LogJs JUndefined
      end)] ;;
  registerResult <-
    request (on_createMachine client)
      (createMachine
         (option_map
            (map (fun func =>
                    {| meta_name := name func;
                       meta_description := description func;
                       meta_schema :=
                         JSON_stringify lib
                           (if isZodType (schema func)
                            then zodToJsonSchema lib (schema func)
                            else schema_value (schema func));
                       meta_config := config func |}))
            tools)) ;;
  ret registerResult.

(** [PollingAgent.start]: the machine is registered, then the loop is set
    off and not awaited; of the loop, only its first assignment
    ([this.polling = true]) is part of [start], the passes that follow are
    [runLoop]'s. *)
Definition start : Eff (PollingAgent * Trace) unit :=
  on_trace (log "Starting polling agent" []) ;;
  self <- this ;;
  on_trace (registerMachine (jsonRpcClient self) (Some (tools self))) ;;
  update (set_polling true).

(** What [pollForJobCompletion] and [createAndPollJob] resolve to. *)
Record JobOutcome : Type := mkJobOutcome {
  status : option string;
  result : string;
  resultType : string
}.

(** [!status || !["failure", "done"].includes(status)], negated: the loop of
    [pollForJobCompletion] is left on exactly these. *)
Definition terminal (status : option string) : bool :=
  match status with
  | Some s => negb (s =? "") && ((s =? "failure") || (s =? "done"))
  | None => false
  end.

(** The [while] of [pollForJobCompletion], for at most [fuel] passes: no
    completion when the loop is still running after them. *)
Fixpoint pollForJobCompletion_while (client : JSONRPCClient)
    (clusterId jobId : string) (fuel : nat)
    (status : option string) (result resultType : string) (tr : Trace)
  : option (Completion JobOutcome) * Trace :=
  if terminal status then
    (Some (Normal {| status := status; result := result;
                     resultType := resultType |}), tr)
  else
    match fuel with
    | O => (None, tr)
    | S fuel' =>
        match request (on_getJob client) (getJob clusterId jobId 20) tr with
        | (Abrupt e, tr1) => (Some (Abrupt e), tr1)
        | (Normal details, tr1) =>
            let body := details in
            let status := body_status body in
            let result := or_default (body_result body) "" in
            let resultType := or_default (body_resultType body) "rejection" in
            let '(_, tr2) := sleep 1000 tr1 in
            pollForJobCompletion_while client clusterId jobId fuel'
              status result resultType tr2
        end
    end.

(** [pollForJobCompletion], its optional parameters given. *)
Definition pollForJobCompletion (client : JSONRPCClient)
    (clusterId jobId : string) (initialStatus : option string)
    (initialResult initialResultType : string) (fuel : nat) (tr : Trace)
  : option (Completion JobOutcome) * Trace :=
  pollForJobCompletion_while client clusterId jobId fuel
    initialStatus initialResult initialResultType tr.

(** [createAndPollJob]. *)
Definition createAndPollJob (client : JSONRPCClient)
    (clusterId toolName : string) (input : JsValue) (fuel : nat) (tr : Trace)
  : option (Completion JobOutcome) * Trace :=
  match request (on_createJob client) (createJob toolName input clusterId 20) tr
  with
  | (Abrupt e, tr1) => (Some (Abrupt e), tr1)
  | (Normal createResult, tr1) =>
      pollForJobCompletion client clusterId (body_id createResult)
        (body_status createResult)
        (or_default (body_result createResult) "")
        (or_default (body_resultType createResult) "rejection")
        fuel tr1
  end.

End WithImports.

End polling.

(** ** [agentrpc.ts] *)

Module agentrpc.

Definition log : string -> list (string * LogValue) -> Eff Trace unit :=
  debug "agentrpc:client".

(** *** The registry object

    [toolsRegistry] starts as [{}] and is used as a map from names to
    registrations.  Its own properties are kept in creation order; reading a
    key that is not its own falls through to [Object.prototype]. *)
Definition Registry : Type := list (string * ToolRegistrationInput).

Fixpoint own (reg : Registry) (key : string) : option ToolRegistrationInput :=
  match reg with
  | [] => None
  | (k, v) :: rest => if k =? key then Some v else own rest key
  end.

Definition Object_prototype : list string :=
  ["constructor"; "__defineGetter__"; "__defineSetter__"; "hasOwnProperty";
   "__lookupGetter__"; "__lookupSetter__"; "isPrototypeOf";
   "propertyIsEnumerable"; "toString"; "valueOf"; "__proto__";
   "toLocaleString"].

Definition inherited (key : string) : bool :=
  existsb (String.eqb key) Object_prototype.

(** [reg[key]] read as a condition: a registration is an object and what
    [Object.prototype] holds are functions and an object, all truthy; a key
    found nowhere reads [undefined]. *)
Definition has (reg : Registry) (key : string) : bool :=
  match own reg key with
  | Some _ => true
  | None => inherited key
  end.

(** [reg[key] = v] for a key that [Object.prototype] does not hold (the only
    keys [register] reaches it with): an own property is overwritten in
    place, a new one is created last. *)
Fixpoint assign (reg : Registry) (key : string) (v : ToolRegistrationInput)
  : Registry :=
  match reg with
  | [] => [(key, v)]
  | (k, x) :: rest =>
      if k =? key then (k, v) :: rest else (k, x) :: assign rest key v
  end.

(** The value of a key that is an array index: a canonical decimal numeral
    below [2^32 - 1]. *)
Definition digit (c : ascii) : option N :=
  let n := N_of_ascii c in
  if ((48 <=? n) && (n <=? 57))%N then Some (n - 48)%N else None.

Fixpoint digits (s : string) (acc : N) : option N :=
  match s with
  | EmptyString => Some acc
  | String c rest =>
      match digit c with
      | Some d => digits rest (10 * acc + d)%N
      | None => None
      end
  end.

Definition array_index (key : string) : option N :=
  match key with
  | EmptyString => None
  | String c rest =>
      if (c =? "0")%char then
        match rest with EmptyString => Some 0%N | _ => None end
      else
        match digits key 0 with
        | Some n => if (n <? 2 ^ 32 - 1)%N then Some n else None
        | None => None
        end
  end.

Fixpoint insert_ascending (i : N) (v : ToolRegistrationInput)
    (xs : list (N * ToolRegistrationInput))
  : list (N * ToolRegistrationInput) :=
  match xs with
  | [] => [(i, v)]
  | (j, w) :: rest =>
      if (i <? j)%N then (i, v) :: (j, w) :: rest
      else (j, w) :: insert_ascending i v rest
  end.

(** The own properties whose key is an array index, in ascending order, and
    the others, in creation order. *)
Fixpoint indexed (reg : Registry) : list (N * ToolRegistrationInput) :=
  match reg with
  | [] => []
  | (k, v) :: rest =>
      match array_index k with
      | Some i => insert_ascending i v (indexed rest)
      | None => indexed rest
      end
  end.

Fixpoint named (reg : Registry) : list ToolRegistrationInput :=
  match reg with
  | [] => []
  | (k, v) :: rest =>
      match array_index k with
      | Some _ => named rest
      | None => v :: named rest
      end
  end.

(** [Object.values(reg)]. *)
Definition Object_values (reg : Registry) : list ToolRegistrationInput :=
  map snd (indexed reg) ++ named reg.

(** *** The client *)

(** The [options] of the constructor. *)
Record Options : Type := mkOptions {
  options_apiSecret : option string;
  options_endpoint : option string;
  options_machineId : option string;
  options_mcpUuid : option string;
  options_mcpApp : option string;
  options_mcpSessionId : option string;
  options_mcpChatId : option string
}.

(** The fields of an [AgentRPC]. *)
Record AgentRPC : Type := mkAgentRPC {
  clusterId : string;
  apiSecret : string;
  endpoint : string;
  machineId : string;
  jsonRpcClient : JSONRPCClient;
  pollingAgents : list polling.PollingAgent;
  toolsRegistry : Registry
}.

Definition set_toolsRegistry (reg : Registry) (self : AgentRPC) : AgentRPC :=
  {| clusterId := clusterId self;
     apiSecret := apiSecret self;
     endpoint := endpoint self;
     machineId := machineId self;
     jsonRpcClient := jsonRpcClient self;
     pollingAgents := pollingAgents self;
     toolsRegistry := reg |}.

Definition set_pollingAgents (agents : list polling.PollingAgent)
    (self : AgentRPC) : AgentRPC :=
  {| clusterId := clusterId self;
     apiSecret := apiSecret self;
     endpoint := endpoint self;
     machineId := machineId self;
     jsonRpcClient := jsonRpcClient self;
     pollingAgents := agents;
     toolsRegistry := toolsRegistry self |}.

(** [options?.field]. *)
Definition field (options : option Options)
    (f : Options -> option string) : option string :=
  match options with
  | Some o => f o
  | None => None
  end.

Section WithImports.

Variable lib : Imports.

(** The client that posts each request to [url] with [headers]: the
    [new JSONRPCClient(...)] over [fetch] of the constructor. *)
Variable connect : string -> list (string * string) -> JSONRPCClient.

(** [new AgentRPC(options)]. *)
Definition constructor (options : option Options) : Completion AgentRPC :=
  let apiSecret := field options options_apiSecret in
  match apiSecret with
  | None => Abrupt (AgentRPCError "No API Secret provided.")
  | Some apiSecret =>
      if apiSecret =? "" then Abrupt (AgentRPCError "No API Secret provided.")
      else
        let pieces := split "_" apiSecret in
        let prefix := nth_error pieces 0 in
        let clusterId := nth_error pieces 1 in
        let rand := nth_error pieces 2 in
        if negb (match prefix with Some p => p =? "sk" | None => false end)
           || negb (truthy clusterId) || negb (truthy rand)
        then Abrupt (AgentRPCError "Invalid API Secret.")
        else
          let endpoint :=
            or_default (field options options_endpoint)
              "https://api.agentrpc.com" in
          let mcpUuid := field options options_mcpUuid in
          let mcpApp := field options options_mcpApp in
          if negb (endpoint =? "https://api.agentrpc.com")
             && negb (truthy mcpUuid)
          then
            Abrupt (AgentRPCError
                      "mcpUuid is required when a custom endpoint is provided.")
          else
            let url :=
              if truthy mcpUuid then
                let url := (endpoint ++ "/v1/" ++ or_default mcpUuid "")%string in
                if truthy mcpApp then (url ++ "/" ++ or_default mcpApp "")%string
                else url
              else (endpoint ++ "/json-rpc")%string in
            let headers :=
              [("content-type", "application/json");
               ("authorization", apiSecret)]
              ++ (let v := field options options_mcpSessionId in
                  if truthy v then [("mcp-session-id", or_default v "")]
                  else [])
              ++ (let v := field options options_mcpChatId in
                  if truthy v then [("x-pd-mcp-chat-id", or_default v "")]
                  else []) in
            Normal
              {| clusterId := or_default clusterId "";
                 apiSecret := apiSecret;
                 endpoint := endpoint;
                 machineId :=
                   or_default (field options options_machineId)
                     (machine_id lib);
                 jsonRpcClient := connect url headers;
                 pollingAgents := [];
                 toolsRegistry := [] |}
  end.

(** [AgentRPC.register]. *)
Definition register (tool : ToolRegistrationInput)
  : Eff (AgentRPC * Trace) unit :=
  self <- this ;;
  if has (toolsRegistry self) (name tool) then
    throw (AgentRPCError
             ("Tool name '" ++ name tool ++ "' is already registered."))
  else
    let registration :=
      {| name := name tool;
         handler := handler tool;
         schema := schema tool;
         config := config tool;
         description := description tool |} in
    let existing := (0 <? length (pollingAgents self))%nat in
    if existing then
      throw (AgentRPCError
               "Tools must be registered before starting the listener.")
    else if negb (typeof_handler (handler registration) =? "function") then
      throw (AgentRPCError "handler must be a function.")
    else
      on_trace (log "Registering tool"
                  [("name", LogJs (JStr (name registration)))]) ;;
      update (fun self =>
                set_toolsRegistry
                  (assign (toolsRegistry self) (name registration)
                     registration)
                  self).

(** [AgentRPC.listen].  The agent pushed onto [pollingAgents] and the agent
    that [start] runs on are one object: what [start] does to it shows in the
    list, also when [start] rejects. *)
Definition listen : Eff (AgentRPC * Trace) unit :=
  self <- this ;;
  if (0 <? length (pollingAgents self))%nat then
    throw (AgentRPCError "Tools already listening")
  else
    let agent :=
      polling.constructor (clusterId self)
        (Object_values (toolsRegistry self)) (jsonRpcClient self) in
    fun s =>
      let '(c, (agent', tr')) := polling.start lib (agent, snd s) in
      (c, (set_pollingAgents (pollingAgents self ++ [agent']) (fst s), tr')).

(** [AgentRPC.unlisten]: every agent's [stop()] is called, in order; each
    runs to its end within the call. *)
Fixpoint stop_all (agents : list polling.PollingAgent) (tr : Trace)
  : list polling.PollingAgent * Trace :=
  match agents with
  | [] => ([], tr)
  | agent :: rest =>
      let '(_, (agent', tr1)) := polling.stop (agent, tr) in
      let '(rest', tr2) := stop_all rest tr1 in
      (agent' :: rest', tr2)
  end.

Definition unlisten : Eff (AgentRPC * Trace) unit :=
  fun s =>
    let '(agents, tr') := stop_all (pollingAgents (fst s)) (snd s) in
    (Normal tt, (set_pollingAgents agents (fst s), tr')).

(** [AgentRPC.getClusterId]. *)
Definition getClusterId (self : AgentRPC) : string := clusterId self.

End WithImports.

End agentrpc.

(** ** Reading a trace *)

(** The registration [processCall] dispatches a job to: the first of the
    agent's tools whose name is the job's [function]. *)
Definition registration_of (self : polling.PollingAgent) (call : JobMessage)
  : option ToolRegistrationInput :=
  find (fun fn => name fn =? function call) (polling.tools self).

(** The requests sent, the handler calls made and the validator calls made,
    each in order. *)
Definition requests (tr : Trace) : list Request :=
  flat_map (fun e => match e with EvRequest r => [r] | _ => [] end) tr.

Definition invocations (tr : Trace) : list (Handler * list JsValue) :=
  flat_map (fun e => match e with EvInvoke h args => [(h, args)] | _ => [] end)
    tr.

Definition validations (tr : Trace) : list (Schema * JsValue) :=
  flat_map (fun e => match e with EvValidate s args => [(s, args)] | _ => [] end)
    tr.

(** The messages logged. *)
Definition logged (tr : Trace) : list string :=
  flat_map (fun e => match e with EvLog _ m _ => [m] | _ => [] end) tr.

(** [createJobResult] requests for one job. *)
Definition reports_for (jobId : string) (tr : Trace) : list Request :=
  filter (fun r => match r with
                   | createJobResult j _ _ _ _ => j =? jobId
                   | _ => false
                   end)
    (requests tr).

(** A credential as the constructor wants it: [sk], then a cluster id that is
    not empty, then a third piece that is not empty, with underscores
    between; what follows a further underscore is not looked at. *)
Definition well_formed_credential (secret : string) : Prop :=
  exists cluster third rest,
    split "_" secret = "sk" :: cluster :: third :: rest
    /\ cluster <> "" /\ third <> "".

(** The constructor's test on the pieces of the credential, as it stands in
    the code. *)
Definition credential_refused (secret : string) : bool :=
  let pieces := split "_" secret in
  negb (match nth_error pieces 0 with Some p => p =? "sk" | None => false end)
  || negb (truthy (nth_error pieces 1)) || negb (truthy (nth_error pieces 2)).

(** The entry [stop()] leaves in the log. *)
Definition stop_entry : Event :=
  EvLog "agentrpc:client:polling-agent" "Stopping polling agent" [].

(** The entry of a failed pass. *)
Definition failure_entry (failureCount : nat) (e : Thrown) : Event :=
  EvLog "agentrpc:client:polling-agent" "Failed poll iteration"
    [("failureCount", LogJs (JNum (Z.of_nat failureCount)));
     ("error", LogThrown e)].

(** The returned result and result type are those of the last [getJob]
    reply: the trace ends with a [getJob] request and the second of sleep
    that follows it, and the reply to that request, with the defaults for
    what it leaves out, is what was returned. *)
Definition reflects_last_getJob (client : JSONRPCClient) (clusterId : string)
    (out : polling.JobOutcome) (tr : Trace) : Prop :=
  exists before jobId body,
    tr = before ++ [EvRequest (getJob clusterId jobId 20); EvSleep 1000]
    /\ on_getJob client before (getJob clusterId jobId 20) = Normal body
    /\ polling.status out = body_status body
    /\ polling.result out = or_default (body_result body) ""
    /\ polling.resultType out = or_default (body_resultType body) "rejection".

(** The returned result and result type are those of the [createJob] reply,
    no [getJob] having been sent: the trace ends with the [createJob]
    request. *)
Definition reflects_createJob (client : JSONRPCClient)
    (clusterId toolName : string) (input : JsValue)
    (out : polling.JobOutcome) (tr : Trace) : Prop :=
  exists before body,
    tr = before ++ [EvRequest (createJob toolName input clusterId 20)]
    /\ on_createJob client before (createJob toolName input clusterId 20)
       = Normal body
    /\ polling.status out = body_status body
    /\ polling.result out = or_default (body_result body) ""
    /\ polling.resultType out = or_default (body_resultType body) "rejection".

(** The input shapes [processCall] turns away before it validates: [null], an
    array, or anything whose [typeof] is not ["object"]. *)
Definition malformed (args : JsValue) : bool :=
  negb (typeof args =? "object") || Array_isArray args || is_null args.

(** ** Further readings, of the registry and of a batch *)


(** The job a request reports on, when it is a [createJobResult]. *)
Definition report_target (r : Request) : option string :=
  match r with
  | createJobResult jobId _ _ _ _ => Some jobId
  | _ => None
  end.


(** A registry as [register] builds it: no key twice, every registration
    under its own name, no key that [Object.prototype] holds. *)
Definition registry_ok (reg : agentrpc.Registry) : Prop :=
  NoDup (map fst reg)
  /\ Forall (fun kv => name (snd kv) = fst kv) reg
  /\ Forall (fun kv => agentrpc.inherited (fst kv) = false) reg.

(** The entry [register] leaves in the log. *)
Definition register_entry (tool : ToolRegistrationInput) : Event :=
  EvLog "agentrpc:client" "Registering tool"
    [("name", LogJs (JStr (name tool)))].

(** The entry of a pass that succeeds after failures. *)
Definition recovery_entry (failureCount : nat) : Event :=
  EvLog "agentrpc:client:polling-agent"
    ("Poll iteration recovered after " ++ decimal failureCount ++ " failures")
    [].

(** A string without an underscore. *)
Definition no_underscore (s : string) : Prop :=
  forall c, In c (list_ascii_of_string s) -> c <> "_"%char.

(** ** A small deployment, to run the definitions on *)

Module sample.

(** A serializer that keeps the message, and a validator that wants a
    [name] that is a string. *)
Definition lib : Imports :=
  {| serializeError :=
       fun e =>
         match e with
         | Error m => JObj [("name", JStr "Error"); ("message", JStr m)]
         | TypeError m => JObj [("name", JStr "TypeError"); ("message", JStr m)]
         | AgentRPCError m =>
             JObj [("name", JStr "AgentRPCError"); ("message", JStr m)]
         | ZodError _ => JObj [("name", JStr "ZodError")]
         | ThrownValue v => JObj [("value", v)]
         end;
     validateFunctionArgs :=
       fun _ args =>
         match args with
         | JObj [("name", JStr _)] => None
         | _ =>
             Some (ZodError
                     [{| issue_path := [JStr "name"];
                         issue_message := "Required" |}])
         end;
     zodToJsonSchema := schema_value;
     JSON_stringify := fun _ => "{}";
     machine_id := "machine-1";
     now := fun tr => Z.of_nat (length tr) |}.

(** A coordinator with no jobs to hand out, that acknowledges every result
    and reports every job it is asked about as done. *)
Definition client : JSONRPCClient :=
  {| on_createMachine := fun _ _ => Normal "cluster";
     on_listJobs := fun _ _ => Normal [];
     on_createJobResult := fun _ _ => Normal tt;
     on_createJob :=
       fun _ _ =>
         Normal {| body_id := "job-7"; body_status := Some "pending";
                   body_result := None; body_resultType := None |};
     on_getJob :=
       fun _ _ =>
         Normal {| body_id := "job-7"; body_status := Some "done";
                   body_result := Some "Hello Ada";
                   body_resultType := Some "resolution" |} |}.

(** A coordinator whose [createJob] reply is final already, and that would
    say something else if it were asked about the job. *)
Definition prompt_client : JSONRPCClient :=
  {| on_createMachine := fun _ _ => Normal "cluster";
     on_listJobs := fun _ _ => Normal [];
     on_createJobResult := fun _ _ => Normal tt;
     on_createJob :=
       fun _ _ =>
         Normal {| body_id := "job-8"; body_status := Some "done";
                   body_result := Some "Hello Ada";
                   body_resultType := Some "resolution" |};
     on_getJob :=
       fun _ _ =>
         Normal {| body_id := "job-8"; body_status := Some "failure";
                   body_result := Some "gone";
                   body_resultType := Some "rejection" |} |}.

Definition greet (args : list JsValue) : Settled :=
  match args with
  | [JObj [("name", JStr who)]] => Returned (JStr ("Hello " ++ who))
  | _ => Threw (TypeError "Cannot destructure property")
  end.

Definition hello : ToolRegistrationInput :=
  {| name := "hello";
     handler := Callable greet;
     schema := ZodSchema (JObj [("name", JStr "string")]);
     config := JUndefined;
     description := Some "Says hello" |}.

Definition agent : polling.PollingAgent :=
  polling.constructor "cluster" [hello] client.

(** An agent that has lost its cluster id. *)
Definition nameless : polling.PollingAgent :=
  polling.constructor "" [hello] client.

Definition options : agentrpc.Options :=
  {| agentrpc.options_apiSecret := Some "sk_cluster_s3cret";
     agentrpc.options_endpoint := None;
     agentrpc.options_machineId := None;
     agentrpc.options_mcpUuid := None;
     agentrpc.options_mcpApp := None;
     agentrpc.options_mcpSessionId := None;
     agentrpc.options_mcpChatId := None |}.

Definition short_options : agentrpc.Options :=
  {| agentrpc.options_apiSecret := Some "sk_cluster";
     agentrpc.options_endpoint := None;
     agentrpc.options_machineId := None;
     agentrpc.options_mcpUuid := None;
     agentrpc.options_mcpApp := None;
     agentrpc.options_mcpSessionId := None;
     agentrpc.options_mcpChatId := None |}.

(** A client as the constructor leaves it, and the same with [hello]
    registered. *)
Definition fresh : agentrpc.AgentRPC :=
  {| agentrpc.clusterId := "cluster";
     agentrpc.apiSecret := "sk_cluster_s3cret";
     agentrpc.endpoint := "https://api.agentrpc.com";
     agentrpc.machineId := "machine-1";
     agentrpc.jsonRpcClient := client;
     agentrpc.pollingAgents := [];
     agentrpc.toolsRegistry := [] |}.

Definition registered : agentrpc.AgentRPC :=
  agentrpc.set_toolsRegistry [("hello", hello)] fresh.

(** An input [hello] accepts. *)
Definition ada : JsValue := JObj [("name", JStr "Ada")].

(** The state [listen] leaves, called on the client with [hello]
    registered. *)
Definition listening : agentrpc.AgentRPC * Trace :=
  snd (agentrpc.listen lib (registered, [])).

(** The application calls [stop()] once the trace has six entries. *)
Definition stopped (tr : Trace) : bool := (6 <=? length tr)%nat.

End sample.

(** ** More of the deployment: a batch, coordinators that fail, other tools *)

Module scenario.

(** A batch: a job for [hello], a job for a tool the agent does not have,
    and a job for [hello] without an object. *)
Definition jobs : list JobMessage :=
  [mkJob "job-1" "hello" sample.ada;
   mkJob "job-2" "goodbye" sample.ada;
   mkJob "job-3" "hello" JNull].

(** A coordinator that hands that batch out and rejects the result of its
    last job. *)
Definition busy_client : JSONRPCClient :=
  {| on_createMachine := fun _ _ => Normal "cluster";
     on_listJobs := fun _ _ => Normal jobs;
     on_createJobResult :=
       fun _ r =>
         match report_target r with
         | Some jobId =>
             if jobId =? "job-3" then Abrupt (Error "Service Unavailable")
             else Normal tt
         | None => Normal tt
         end;
     on_createJob := on_createJob sample.client;
     on_getJob := on_getJob sample.client |}.

Definition busy_agent : polling.PollingAgent :=
  polling.constructor "cluster" [sample.hello] busy_client.



(** A tool whose handler is a string, a tool named as a method every object
    has, and one more tool. *)
Definition shout : ToolRegistrationInput :=
  {| name := "shout";
     handler := NotCallable (JStr "HELLO");
     schema := JsonSchema (JObj []);
     config := JUndefined;
     description := None |}.

Definition toString : ToolRegistrationInput :=
  {| name := "toString";
     handler := Callable sample.greet;
     schema := JsonSchema (JObj []);
     config := JUndefined;
     description := None |}.

Definition wave : ToolRegistrationInput :=
  {| name := "wave";
     handler := Callable (fun _ => Returned JNull);
     schema := JsonSchema (JObj []);
     config := JUndefined;
     description := None |}.


(** Options with an endpoint of one's own and no [mcpUuid]. *)
Definition self_hosted : agentrpc.Options :=
  {| agentrpc.options_apiSecret := Some "sk_cluster_s3cret";
     agentrpc.options_endpoint := Some "https://rpc.example.org";
     agentrpc.options_machineId := None;
     agentrpc.options_mcpUuid := None;
     agentrpc.options_mcpApp := None;
     agentrpc.options_mcpSessionId := None;
     agentrpc.options_mcpChatId := None |}.

End scenario.

(** * Properties *)

(** ** Traces *)

Lemma requests_app (a b : Trace) : requests (a ++ b) = requests a ++ requests b.
Proof. unfold requests. apply flat_map_app. Qed.

Lemma invocations_app (a b : Trace) :
  invocations (a ++ b) = invocations a ++ invocations b.
Proof. unfold invocations. apply flat_map_app. Qed.

Lemma validations_app (a b : Trace) :
  validations (a ++ b) = validations a ++ validations b.
Proof. unfold validations. apply flat_map_app. Qed.

(** A run of [forEach] over a logger adds log entries and nothing else. *)
Lemma forEach_log {A : Type} (entry : A -> string * list (string * LogValue))
    (xs : list A) (tr : Trace) :
  polling.forEach
    (fun x => polling.log (fst (entry x)) (snd (entry x))) xs tr
  = (Normal tt,
     tr ++ map (fun x => EvLog "agentrpc:client:polling-agent"
                           (fst (entry x)) (snd (entry x))) xs).
Proof.
  revert tr. induction xs as [| x xs IH]; intros tr; simpl.
  - unfold ret. now rewrite app_nil_r.
  - unfold bind, polling.log, debug, emit. rewrite IH.
    now rewrite <- app_assoc.
Qed.

Lemma requests_logs {A : Type} (f : A -> Event) (xs : list A) :
  (forall x, exists c m p, f x = EvLog c m p) ->
  requests (map f xs) = [] /\ invocations (map f xs) = []
  /\ validations (map f xs) = [].
Proof.
  intros Hf. induction xs as [| x xs (IHr & IHi & IHv)]; simpl; [easy |].
  destruct (Hf x) as (c & m & p & ->). simpl. easy.
Qed.

(** ** [processCall] *)

Section ProcessCall.

Variable lib : Imports.
Variable self : polling.PollingAgent.
Variable call : JobMessage.
Variable tr : Trace.

Lemma malformed_cases (args : JsValue) :
  args = JNull \/ Array_isArray args = true \/ typeof args <> "object" ->
  malformed args = true.
Proof.
  intros [-> | [H | H]]; [reflexivity | |]; destruct args; simpl in *;
    try reflexivity; try discriminate; now contradiction H.
Qed.

Lemma wellformed_object (props : list (string * JsValue)) :
  malformed (JObj props) = false.
Proof. reflexivity. Qed.

Lemma unregistered_find :
  (forall t, In t (polling.tools self) -> name t <> function call) ->
  registration_of self call = None.
Proof.
  intros H. unfold registration_of.
  destruct (find _ _) as [t |] eqn:E; [| reflexivity].
  apply find_some in E. destruct E as [Hin Heq].
  apply String.eqb_eq in Heq. now apply H in Hin.
Qed.

(** C4. A job whose function names no registered tool: [processCall] logs
    that it received a call for an unknown function and returns, having sent
    no request at all (so no [createJobResult] for the job's id), called no
    validator and invoked no handler. *)
Theorem processCall_unknown_function_dropped :
  (forall t, In t (polling.tools self) -> name t <> function call) ->
  exists evs,
    polling.processCall lib self call tr = (Normal tt, tr ++ evs)
    /\ logged evs = ["Received call for unknown function"]
    /\ requests evs = []
    /\ reports_for (id call) evs = []
    /\ validations evs = []
    /\ invocations evs = [].
Proof.
  intros Hnone. apply unregistered_find in Hnone.
  unfold registration_of in Hnone. unfold polling.processCall.
  rewrite Hnone. eexists. split; [reflexivity |]. simpl. repeat split.
Qed.


(** What [onComplete] adds to the trace for a rejection whose content is
    [content]: the log entry and the [createJobResult] request. *)
Lemma processCall_malformed_run (registration : ToolRegistrationInput) :
  registration_of self call = Some registration ->
  malformed (input call) = true ->
  exists logs,
    snd (polling.processCall lib self call tr)
    = tr ++ logs
         ++ [EvRequest
               (createJobResult (id call) (polling.clusterId self)
                  (serializeError lib (Error polling.invalid_format))
                  rejection 0)]
    /\ requests logs = [] /\ validations logs = [] /\ invocations logs = [].
Proof.
  intros Hfind Hbad. unfold registration_of in Hfind.
  unfold malformed in Hbad. unfold polling.processCall.
  rewrite Hfind. unfold bind, polling.log, debug, emit, request. simpl.
  rewrite Hbad. simpl. rewrite <- !app_assoc. simpl.
  eexists [_; _; _; _]. split; [reflexivity | repeat split].
Qed.

(** C2. A job for a registered tool whose input is [null], an array, or not
    an object at all (a primitive, or missing): exactly one request is sent,
    the [createJobResult] of that job, of type rejection, its content the
    serialized error that says an object was expected; the validator is not
    called and the handler is not invoked. *)
Theorem processCall_malformed_input_rejected
    (registration : ToolRegistrationInput) :
  registration_of self call = Some registration ->
  input call = JNull \/ Array_isArray (input call) = true
  \/ typeof (input call) <> "object" ->
  exists evs,
    snd (polling.processCall lib self call tr) = tr ++ evs
    /\ requests evs
       = [createJobResult (id call) (polling.clusterId self)
            (serializeError lib
               (Error
                  "Function was called with invalid invalid format. Expected an object."))
            rejection 0]
    /\ validations evs = []
    /\ invocations evs = [].
Proof.
  intros Hfind Hshape. apply malformed_cases in Hshape.
  destruct (processCall_malformed_run registration Hfind Hshape)
    as (logs & Hrun & Hr & Hv & Hi).
  eexists. split; [exact Hrun |].
  rewrite requests_app, validations_app, invocations_app, Hr, Hv, Hi.
  simpl. repeat split.
Qed.

(** The run of [processCall] on a well-formed object the validator throws
    on. *)
Lemma processCall_invalid_run (registration : ToolRegistrationInput)
    (e : Thrown) :
  registration_of self call = Some registration ->
  malformed (input call) = false ->
  validateFunctionArgs lib (schema registration) (input call) = Some e ->
  exists evs,
    snd (polling.processCall lib self call tr) = tr ++ evs
    /\ requests evs
       = [createJobResult (id call) (polling.clusterId self)
            (serializeError lib e) rejection 0]
    /\ validations evs = [(schema registration, input call)]
    /\ invocations evs = [].
Proof.
  intros Hfind Hok Hval. unfold registration_of in Hfind.
  unfold malformed in Hok. unfold polling.processCall.
  rewrite Hfind.
  unfold bind, try_catch, polling.validate, polling.log, debug, emit, request,
    bind, throw, ret.
  simpl. rewrite Hok. simpl. rewrite Hval.
  destruct e as [m | m | m | errors | v]; simpl;
    try (rewrite <- !app_assoc; simpl; eexists; split;
         [reflexivity | repeat split]).
  pose proof
    (forEach_log
       (fun error =>
          ("Function input does not match schema",
           [("function", LogJs (JStr (function call)));
            ("path", LogJs (JArr (issue_path error)));
            ("error", LogJs (JStr (issue_message error)))]))
       errors) as Hlogs.
  simpl in Hlogs. unfold polling.log, debug, emit in Hlogs.
  rewrite Hlogs. simpl. rewrite <- !app_assoc. simpl.
  match goal with
  | |- context [map ?f errors] =>
      destruct (requests_logs f errors) as (Hr & Hi & Hv);
      [intros x; eauto |]
  end.
  eexists. split; [reflexivity |].
  change (?a :: ?b :: ?c :: ?rest) with ([a; b; c] ++ rest).
  rewrite !requests_app, !validations_app, !invocations_app, Hr, Hi, Hv.
  repeat split.
Qed.

(** C3. A job for a registered tool whose input is a well-formed object that
    the validator throws [e] on: exactly one request is sent, the
    [createJobResult] of that job, of type rejection, its content the
    serialized [e]; the handler is not invoked. *)
Theorem processCall_invalid_input_rejected
    (registration : ToolRegistrationInput) (props : list (string * JsValue))
    (e : Thrown) :
  registration_of self call = Some registration ->
  input call = JObj props ->
  validateFunctionArgs lib (schema registration) (input call) = Some e ->
  exists evs,
    snd (polling.processCall lib self call tr) = tr ++ evs
    /\ requests evs
       = [createJobResult (id call) (polling.clusterId self)
            (serializeError lib e) rejection 0]
    /\ invocations evs = [].
Proof.
  intros Hfind Hobj Hval.
  assert (Hok : malformed (input call) = false)
    by (rewrite Hobj; apply wellformed_object).
  destruct (processCall_invalid_run registration e Hfind Hok Hval)
    as (evs & Hrun & Hr & _ & Hi).
  exists evs. auto.
Qed.

(** The run of [processCall] on a well-formed object the validator accepts,
    for a handler that returns. *)
Lemma processCall_valid_run (registration : ToolRegistrationInput)
    (f : list JsValue -> Settled) (v : JsValue) :
  registration_of self call = Some registration ->
  malformed (input call) = false ->
  validateFunctionArgs lib (schema registration) (input call) = None ->
  handler registration = Callable f ->
  f [input call] = Returned v ->
  exists evs elapsed,
    snd (polling.processCall lib self call tr) = tr ++ evs
    /\ requests evs
       = [createJobResult (id call) (polling.clusterId self) v success
            elapsed]
    /\ validations evs = [(schema registration, input call)]
    /\ invocations evs = [(handler registration, [input call])].
Proof.
  intros Hfind Hok Hval Hfun Hret. unfold registration_of in Hfind.
  unfold malformed in Hok. unfold polling.processCall.
  rewrite Hfind.
  unfold bind, try_catch, polling.validate, polling.executeFn, polling.log,
    debug, emit, request, bind, throw, ret.
  simpl. rewrite Hok. simpl. rewrite Hval. rewrite Hfun. simpl.
  rewrite Hret. simpl. rewrite <- !app_assoc. simpl.
  eexists. eexists. split; [reflexivity |]. simpl. repeat split.
Qed.

(** C1. A job for a registered tool whose input is a non-null, non-array
    object that the validator accepts, the handler returning [v] on it: the
    handler is invoked exactly once, on that input, and exactly one request
    is sent, the [createJobResult] of that job, of type success, its content
    [v]. *)
Theorem processCall_valid_input_reported
    (registration : ToolRegistrationInput) (props : list (string * JsValue))
    (f : list JsValue -> Settled) (v : JsValue) :
  registration_of self call = Some registration ->
  input call = JObj props ->
  validateFunctionArgs lib (schema registration) (input call) = None ->
  handler registration = Callable f ->
  f [input call] = Returned v ->
  exists evs elapsed,
    snd (polling.processCall lib self call tr) = tr ++ evs
    /\ invocations evs = [(Callable f, [input call])]
    /\ requests evs
       = [createJobResult (id call) (polling.clusterId self) v success
            elapsed].
Proof.
  intros Hfind Hobj Hval Hfun Hret.
  assert (Hok : malformed (input call) = false)
    by (rewrite Hobj; apply wellformed_object).
  destruct (processCall_valid_run registration f v Hfind Hok Hval Hfun Hret)
    as (evs & elapsed & Hrun & Hr & _ & Hi).
  exists evs, elapsed. rewrite <- Hfun. auto.
Qed.

(** C10. A job for a registered tool that is turned away before the handler
    runs, for its input's shape or by the validator: the one result reported
    carries [functionExecutionTime] 0, whatever the clock reads. *)
Theorem processCall_rejected_time_zero
    (registration : ToolRegistrationInput) :
  registration_of self call = Some registration ->
  (input call = JNull \/ Array_isArray (input call) = true
   \/ typeof (input call) <> "object")
  \/ (exists props e,
        input call = JObj props
        /\ validateFunctionArgs lib (schema registration) (input call)
           = Some e) ->
  exists evs content,
    snd (polling.processCall lib self call tr) = tr ++ evs
    /\ invocations evs = []
    /\ requests evs
       = [createJobResult (id call) (polling.clusterId self) content
            rejection 0].
Proof.
  intros Hfind [Hbad | (props & e & Hobj & Hval)].
  - apply malformed_cases in Hbad.
    destruct (processCall_malformed_run registration Hfind Hbad)
      as (logs & Hrun & Hr & Hv & Hi).
    eexists. eexists. split; [exact Hrun |].
    rewrite requests_app, invocations_app, Hr, Hi. simpl. auto.
  - assert (Hok : malformed (input call) = false)
      by (rewrite Hobj; apply wellformed_object).
    destruct (processCall_invalid_run registration e Hfind Hok Hval)
      as (evs & Hrun & Hr & _ & Hi).
    exists evs. eexists. eauto.
Qed.

End ProcessCall.

(** ** The facade: [register] and [listen] *)

Lemma own_has (reg : agentrpc.Registry) (key : string)
    (v : ToolRegistrationInput) :
  agentrpc.own reg key = Some v -> agentrpc.has reg key = true.
Proof. unfold agentrpc.has. now intros ->. Qed.

Lemma own_assign (reg : agentrpc.Registry) (key : string)
    (v : ToolRegistrationInput) :
  agentrpc.own (agentrpc.assign reg key v) key = Some v.
Proof.
  induction reg as [| [k x] rest IH]; simpl.
  - now rewrite String.eqb_refl.
  - destruct (k =? key) eqn:E; simpl; rewrite E; [reflexivity | exact IH].
Qed.

Lemma tool_eta (t : ToolRegistrationInput) :
  {| name := name t; handler := handler t; schema := schema t;
     config := config t; description := description t |} = t.
Proof. now destruct t. Qed.

(** A successful [register] leaves the registration under its name. *)
Lemma register_registers (tool : ToolRegistrationInput)
    (s s' : agentrpc.AgentRPC * Trace) :
  agentrpc.register tool s = (Normal tt, s') ->
  agentrpc.own (agentrpc.toolsRegistry (fst s')) (name tool) = Some tool.
Proof.
  destruct s as [self tr]. unfold agentrpc.register, bind, this, throw. simpl.
  destruct (agentrpc.has _ _); [discriminate |].
  destruct (0 <? _)%nat; [discriminate |].
  destruct (negb _); [discriminate |].
  unfold on_trace, update, agentrpc.log, debug, emit. simpl.
  intros H. injection H as <-. simpl. rewrite tool_eta. apply own_assign.
Qed.

(** C5. A name the registry holds a registration for: [register] with that
    name throws the configuration error saying the name is already
    registered, and the client (its registry with it) and the trace are left
    as they were.  In particular a second [register] of a name, after a first
    that succeeded, throws and leaves the first registration in place. *)
Theorem register_duplicate_name_rejected
    (self : agentrpc.AgentRPC) (tr : Trace)
    (existing tool : ToolRegistrationInput) :
  (agentrpc.own (agentrpc.toolsRegistry self) (name tool) = Some existing ->
   agentrpc.register tool (self, tr)
   = (Abrupt (AgentRPCError
                ("Tool name '" ++ name tool ++ "' is already registered.")),
      (self, tr)))
  /\ (forall s', name tool = name existing ->
        agentrpc.register existing (self, tr) = (Normal tt, s') ->
        agentrpc.register tool s'
        = (Abrupt (AgentRPCError
                     ("Tool name '" ++ name tool
                      ++ "' is already registered.")), s')
        /\ agentrpc.own (agentrpc.toolsRegistry (fst s')) (name tool)
           = Some existing).
Proof.
  assert (Hdup : forall (c : agentrpc.AgentRPC) (t : Trace) x,
             agentrpc.own (agentrpc.toolsRegistry c) (name tool) = Some x ->
             agentrpc.register tool (c, t)
             = (Abrupt (AgentRPCError
                          ("Tool name '" ++ name tool
                           ++ "' is already registered.")), (c, t))).
  { intros c t x Hown. unfold agentrpc.register, bind, this, throw. simpl.
    now rewrite (own_has _ _ _ Hown). }
  split.
  - apply Hdup.
  - intros [c t] Hname Hfirst. apply register_registers in Hfirst.
    rewrite <- Hname in Hfirst. simpl in Hfirst. split; [| exact Hfirst].
    now apply Hdup with (x := existing).
Qed.

(** Whatever way [listen] completes, the client holds an agent afterwards. *)
Lemma listen_leaves_agent (lib : Imports)
    (s s' : agentrpc.AgentRPC * Trace) (c : Completion unit) :
  agentrpc.listen lib s = (c, s') ->
  (0 <? length (agentrpc.pollingAgents (fst s')))%nat = true.
Proof.
  destruct s as [self tr]. unfold agentrpc.listen, bind, this, throw. simpl.
  destruct (0 <? length (agentrpc.pollingAgents self))%nat eqn:E.
  - intros H. injection H as _ <-. exact E.
  - destruct (polling.start lib _) as [c0 [agent' tr']].
    intros H. injection H as _ <-. simpl.
    rewrite length_app. simpl. apply Nat.ltb_lt. lia.
Qed.

(** With an agent held, [register] throws a configuration error and changes
    nothing: the name is reported as taken when the registry has it, and
    otherwise the tool as coming too late. *)
Lemma register_while_listening (self : agentrpc.AgentRPC) (tr : Trace)
    (tool : ToolRegistrationInput) :
  (0 <? length (agentrpc.pollingAgents self))%nat = true ->
  exists message,
    agentrpc.register tool (self, tr)
    = (Abrupt (AgentRPCError message), (self, tr))
    /\ (agentrpc.has (agentrpc.toolsRegistry self) (name tool) = false ->
        message = "Tools must be registered before starting the listener.").
Proof.
  intros Hagents. unfold agentrpc.register, bind, this, throw. simpl.
  destruct (agentrpc.has _ _).
  - eexists. split; [reflexivity | discriminate].
  - rewrite Hagents. eexists. split; reflexivity.
Qed.

(** C6. Once [listen] has been called and has made its agent, every
    [register], of a name the registry does not have included, throws a
    configuration error and leaves the client, its registry and its agent as
    they were, and every further [listen] throws the error that the tools
    are already listening, again changing nothing and sending nothing.  The
    agent made by a [listen] that resolved is polling, over the tools
    registered up to then. *)
Theorem listen_then_register_and_listen_rejected (lib : Imports)
    (self self' : agentrpc.AgentRPC) (tr tr' : Trace) (c : Completion unit) :
  agentrpc.pollingAgents self = [] ->
  agentrpc.listen lib (self, tr) = (c, (self', tr')) ->
  (exists agent,
      agentrpc.pollingAgents self' = [agent]
      /\ polling.tools agent
         = agentrpc.Object_values (agentrpc.toolsRegistry self)
      /\ (c = Normal tt -> polling.polling agent = true))
  /\ agentrpc.toolsRegistry self' = agentrpc.toolsRegistry self
  /\ (forall tool tr2,
        exists message,
          agentrpc.register tool (self', tr2)
          = (Abrupt (AgentRPCError message), (self', tr2))
          /\ (agentrpc.has (agentrpc.toolsRegistry self') (name tool) = false ->
              message
              = "Tools must be registered before starting the listener."))
  /\ (forall tr2,
        agentrpc.listen lib (self', tr2)
        = (Abrupt (AgentRPCError "Tools already listening"), (self', tr2))).
Proof.
  intros Hnone Hlisten.
  pose proof (listen_leaves_agent lib _ _ _ Hlisten) as Hagents.
  simpl in Hagents.
  repeat split.
  - revert Hlisten. unfold agentrpc.listen, bind, this, throw. simpl.
    rewrite Hnone. simpl.
    unfold polling.start, bind, this, on_trace, update, polling.registerMachine,
      polling.log, debug, emit, request, bind, ret. simpl.
    destruct (on_createMachine _ _ _) as [cid | e]; simpl;
      intros H; injection H as <- <- _; eexists; repeat split;
      discriminate.
  - revert Hlisten. unfold agentrpc.listen, bind, this, throw. simpl.
    rewrite Hnone. simpl. destruct (polling.start lib _) as [c0 [a t]].
    intros H. now injection H as _ <- _.
  - intros tool tr2. now apply register_while_listening.
  - intros tr2. unfold agentrpc.listen, bind, this, throw. simpl.
    now rewrite Hagents.
Qed.

(** ** The facade: the constructor *)

Lemma split_nonempty (sep : ascii) (s : string) : split sep s <> [].
Proof.
  destruct s as [| c rest]; simpl; [discriminate |].
  destruct (Ascii.eqb c sep); [discriminate |].
  destruct (split sep rest); discriminate.
Qed.

(** The pieces of [split], joined by the separator again, are the string. *)
Lemma join_split (s : string) : join "_" (split "_" s) = s.
Proof.
  induction s as [| c rest IH]; [reflexivity |].
  pose proof (split_nonempty "_" rest) as Hne.
  cbn [split]. destruct (Ascii.eqb c "_") eqn:E.
  - apply Ascii.eqb_eq in E. subst c.
    destruct (split "_" rest) as [| piece pieces]; [contradiction |].
    change (join "_" ("" :: piece :: pieces))
      with ("" ++ "_" ++ join "_" (piece :: pieces))%string.
    now rewrite IH.
  - destruct (split "_" rest) as [| piece pieces]; [contradiction |].
    destruct pieces as [| next pieces]; simpl in *; now rewrite IH.
Qed.

Section Constructor.

Variable lib : Imports.
Variable connect : string -> list (string * string) -> JSONRPCClient.

Lemma truthy_nonempty (s : string) : truthy (Some s) = true <-> s <> "".
Proof.
  simpl. destruct (s =? "") eqn:E; simpl.
  - apply String.eqb_eq in E. split; [discriminate | congruence].
  - apply String.eqb_neq in E. split; auto.
Qed.

Lemma credential_refused_iff (secret : string) :
  credential_refused secret = false <-> well_formed_credential secret.
Proof.
  unfold credential_refused, well_formed_credential.
  destruct (split "_" secret) as [| p [| c [| r rest]]] eqn:E; simpl.
  - split; [discriminate | intros (? & ? & ? & H & _); discriminate].
  - split; [| intros (? & ? & ? & H & _); discriminate].
    destruct (p =? "sk"); discriminate.
  - split; [| intros (? & ? & ? & H & _); discriminate].
    destruct (p =? "sk"), (c =? ""); discriminate.
  - split.
    + intros H. apply orb_false_elim in H as [H Hr].
      apply orb_false_elim in H as [Hp Hc].
      apply negb_false_iff in Hp, Hc, Hr.
      apply String.eqb_eq in Hp. subst p.
      exists c, r, rest. repeat split.
      * now apply truthy_nonempty.
      * now apply truthy_nonempty.
    + intros (c' & r' & rest' & H & Hc & Hr).
      injection H as -> -> -> ->.
      apply truthy_nonempty in Hc, Hr. simpl in Hc, Hr.
      now rewrite Hc, Hr.
Qed.

(** C9. A missing (or empty) credential, and a credential that is not [sk],
    a non-empty cluster id and a non-empty third piece joined by underscores,
    make the constructor throw a configuration error; and of every client the
    constructor does return, the credential is of that form and
    [getClusterId()] is its second piece. *)
Theorem constructor_checks_credential (options : option agentrpc.Options) :
  (agentrpc.field options agentrpc.options_apiSecret = None
   \/ agentrpc.field options agentrpc.options_apiSecret = Some "" ->
   agentrpc.constructor lib connect options
   = Abrupt (AgentRPCError "No API Secret provided."))
  /\ (forall secret,
        agentrpc.field options agentrpc.options_apiSecret = Some secret ->
        secret <> "" ->
        ~ well_formed_credential secret ->
        agentrpc.constructor lib connect options
        = Abrupt (AgentRPCError "Invalid API Secret."))
  /\ (forall client,
        agentrpc.constructor lib connect options = Normal client ->
        exists secret,
          agentrpc.field options agentrpc.options_apiSecret = Some secret
          /\ well_formed_credential secret
          /\ nth_error (split "_" secret) 1
             = Some (agentrpc.getClusterId client))
  /\ (forall secret,
        agentrpc.field options agentrpc.options_apiSecret = Some secret ->
        well_formed_credential secret ->
        agentrpc.field options agentrpc.options_endpoint = None ->
        exists client,
          agentrpc.constructor lib connect options = Normal client).
Proof.
  unfold agentrpc.constructor. repeat split; [| | | intros secret].
  - intros [-> | ->]; reflexivity.
  - intros secret -> Hne Hbad. apply String.eqb_neq in Hne. rewrite Hne.
    fold (credential_refused secret).
    destruct (credential_refused secret) eqn:E; [reflexivity |].
    now apply credential_refused_iff in E.
  - intros client.
    destruct (agentrpc.field options agentrpc.options_apiSecret)
      as [secret |]; [| discriminate].
    destruct (secret =? ""); [discriminate |].
    fold (credential_refused secret).
    destruct (credential_refused secret) eqn:E; [discriminate |].
    apply credential_refused_iff in E.
    destruct (_ && _); [discriminate |].
    intros H. injection H as <-. exists secret. repeat split; [exact E |].
    destruct E as (c & r & rest & -> & Hc & _). simpl.
    unfold agentrpc.getClusterId. simpl.
    apply String.eqb_neq in Hc. now rewrite Hc.
  - intros -> Hok ->.
    assert (Hne : (secret =? "") = false).
    { destruct Hok as (c & r & rest & H & _).
      apply String.eqb_neq. intros ->. discriminate. }
    rewrite Hne. fold (credential_refused secret).
    apply credential_refused_iff in Hok. rewrite Hok. simpl.
    eexists. reflexivity.
Qed.

End Constructor.

(** ** The poll loop *)

Section RunLoop.

Variable lib : Imports.
Variable stopped : Trace -> bool.

Lemma suspended_run (self : polling.PollingAgent) (tr : Trace) :
  polling.suspended stopped (self, tr)
  = (Normal tt,
     if stopped tr then (polling.set_polling false self, tr ++ [stop_entry])
     else (self, tr)).
Proof.
  unfold polling.suspended, polling.stop, bind, on_trace, update, polling.log,
    debug, emit, ret.
  simpl. now destruct (stopped tr).
Qed.

Lemma pollIteration_without_clusterId (self : polling.PollingAgent)
    (tr : Trace) :
  polling.clusterId self = "" ->
  polling.pollIteration lib self tr
  = (Abrupt (Error "Failed to poll. Could not find clusterId"), tr).
Proof. intros H. unfold polling.pollIteration. now rewrite H. Qed.

(** A pass whose iteration throws: the failure is logged with the count so
    far, the count goes up by one, and the pass goes on to its sleep. *)
Lemma loopBody_failure (self : polling.PollingAgent) (tr tr1 : Trace)
    (failureCount : nat) (e : Thrown) :
  polling.pollIteration lib self tr = (Abrupt e, tr1) ->
  polling.loopBody lib stopped failureCount (self, tr)
  = (Normal (S failureCount),
     snd (polling.suspended stopped
            (self,
             tr1 ++ [failure_entry failureCount e;
                     EvSleep (polling.retryAfter self * 1000)]))).
Proof.
  intros Hiter.
  unfold polling.loopBody, bind, this, try_catch, on_trace, sleep,
    polling.log, debug, emit, ret.
  simpl. rewrite Hiter. simpl. rewrite <- !app_assoc. simpl.
  fold (failure_entry failureCount e).
  now rewrite !suspended_run.
Qed.

(** A pass whose iteration returns: the count the next pass starts with is
    zero. *)
Lemma loopBody_success (self : polling.PollingAgent) (tr tr1 : Trace)
    (failureCount : nat) :
  polling.pollIteration lib self tr = (Normal tt, tr1) ->
  exists s',
    polling.loopBody lib stopped failureCount (self, tr) = (Normal 0%nat, s').
Proof.
  intros Hiter.
  unfold polling.loopBody, bind, this, try_catch, on_trace, sleep,
    polling.log, debug, emit, ret.
  simpl. rewrite Hiter. simpl.
  destruct failureCount; simpl; rewrite suspended_run; eexists; reflexivity.
Qed.

(** No pass of the loop completes abruptly, and a pass leaves the polling
    flag as it found it unless [stop()] was called meanwhile. *)
Lemma loopBody_normal (failureCount : nat) (s : polling.PollingAgent * Trace) :
  exists failureCount' tr2,
    polling.loopBody lib stopped failureCount s
    = (Normal failureCount',
       if stopped tr2
       then (polling.set_polling false (fst s), tr2 ++ [stop_entry])
       else (fst s, tr2)).
Proof.
  destruct s as [self tr].
  destruct (polling.pollIteration lib self tr) as [[[] | e] tr1] eqn:Hiter.
  - unfold polling.loopBody, bind, this, try_catch, on_trace, sleep,
      polling.log, debug, emit, ret.
    simpl. rewrite Hiter. simpl.
    destruct (0 <? failureCount)%nat; simpl; rewrite suspended_run;
      eexists; eexists; reflexivity.
  - rewrite (loopBody_failure _ _ _ _ _ Hiter), suspended_run.
    eexists. eexists. reflexivity.
Qed.

(** When the loop is over, it is over normally, the flag is down, and the
    last thing in the trace is a [stop()] that happened while it ran. *)
Lemma runLoop_while_over (fuel failureCount : nat)
    (s s' : polling.PollingAgent * Trace) (c : Completion unit) :
  polling.polling (fst s) = true ->
  polling.runLoop_while lib stopped fuel failureCount s = (Some c, s') ->
  c = Normal tt
  /\ polling.polling (fst s') = false
  /\ exists tr0, stopped tr0 = true /\ snd s' = tr0 ++ [stop_entry].
Proof.
  revert failureCount s. induction fuel as [| fuel IH];
    intros failureCount s Hflag; simpl; rewrite Hflag; [discriminate |].
  destruct (loopBody_normal failureCount s) as (n & tr2 & ->).
  destruct (stopped tr2) eqn:Hstop.
  - destruct fuel; simpl; intros H; injection H as <- <-; simpl; eauto.
  - now apply IH.
Qed.

(** While [stop()] is not called the loop is still running after any number
    of passes. *)
Lemma runLoop_while_running (fuel failureCount : nat)
    (s : polling.PollingAgent * Trace) :
  (forall tr0, stopped tr0 = false) ->
  polling.polling (fst s) = true ->
  fst (polling.runLoop_while lib stopped fuel failureCount s) = None.
Proof.
  intros Hnever. revert failureCount s.
  induction fuel as [| fuel IH]; intros failureCount s Hflag; simpl;
    rewrite Hflag; [reflexivity |].
  destruct (loopBody_normal failureCount s) as (n & tr2 & ->).
  rewrite Hnever. now apply IH.
Qed.

(** C7. An iteration that throws, one that finds no [clusterId] included,
    is counted and logged and the loop goes on with its next pass; an
    iteration that returns leaves the count at zero; and the loop is left
    only with the polling flag down, after a [stop()]: as long as there is
    none, it is still running after any number of passes. *)
Theorem runLoop_survives_failures :
  (forall self tr,
      polling.clusterId self = "" ->
      polling.pollIteration lib self tr
      = (Abrupt (Error "Failed to poll. Could not find clusterId"), tr))
  /\ (forall self tr tr1 failureCount e,
        polling.pollIteration lib self tr = (Abrupt e, tr1) ->
        let tr2 :=
          tr1 ++ [failure_entry failureCount e;
                  EvSleep (polling.retryAfter self * 1000)] in
        polling.loopBody lib stopped failureCount (self, tr)
        = (Normal (S failureCount),
           snd (polling.suspended stopped (self, tr2)))
        /\ (polling.polling self = true -> stopped tr2 = false ->
            forall fuel,
              polling.runLoop_while lib stopped (S fuel) failureCount
                (self, tr)
              = polling.runLoop_while lib stopped fuel (S failureCount)
                  (self, tr2))
        /\ (polling.polling self = true -> stopped tr2 = true ->
            forall fuel,
              polling.runLoop_while lib stopped (S fuel) failureCount
                (self, tr)
              = (Some (Normal tt),
                 (polling.set_polling false self, tr2 ++ [stop_entry]))))
  /\ (forall self tr tr1 failureCount,
        polling.pollIteration lib self tr = (Normal tt, tr1) ->
        exists s',
          polling.loopBody lib stopped failureCount (self, tr)
          = (Normal 0%nat, s'))
  /\ (forall fuel s c s',
        polling.runLoop lib stopped fuel s = (Some c, s') ->
        c = Normal tt
        /\ polling.polling (fst s') = false
        /\ exists tr0, stopped tr0 = true /\ snd s' = tr0 ++ [stop_entry])
  /\ ((forall tr0, stopped tr0 = false) ->
      forall fuel s, fst (polling.runLoop lib stopped fuel s) = None).
Proof.
  split; [exact pollIteration_without_clusterId |].
  split.
  { intros self tr tr1 failureCount e Hiter tr2.
    split; [now apply loopBody_failure |].
    split; intros Hflag Hstop fuel; simpl; rewrite Hflag;
      rewrite (loopBody_failure _ _ _ _ _ Hiter), suspended_run;
      fold tr2; rewrite Hstop; [reflexivity |].
    now destruct fuel. }
  split; [intros; eapply loopBody_success; eassumption |].
  split.
  - intros fuel s c s'. unfold polling.runLoop.
    now apply runLoop_while_over.
  - intros Hnever fuel s. unfold polling.runLoop.
    now apply runLoop_while_running.
Qed.

End RunLoop.

(** ** [createAndPollJob] *)

Section CreateAndPoll.

Variable client : JSONRPCClient.
Variable clusterId : string.

(** The loop is left at once on a terminal status, with what it holds. *)
Lemma pollForJobCompletion_while_terminal (jobId : string) (fuel : nat)
    (status : option string) (result resultType : string) (tr : Trace) :
  polling.terminal status = true ->
  polling.pollForJobCompletion_while client clusterId jobId fuel
    status result resultType tr
  = (Some (Normal {| polling.status := status; polling.result := result;
                     polling.resultType := resultType |}), tr).
Proof. intros H. destruct fuel; simpl; now rewrite H. Qed.

(** On any other status it asks, sleeps a second and goes round again with
    what the reply said. *)
Lemma pollForJobCompletion_while_step (jobId : string) (fuel : nat)
    (status : option string) (result resultType : string) (tr : Trace)
    (body : JobBody) :
  polling.terminal status = false ->
  on_getJob client tr (getJob clusterId jobId 20) = Normal body ->
  polling.pollForJobCompletion_while client clusterId jobId (S fuel)
    status result resultType tr
  = polling.pollForJobCompletion_while client clusterId jobId fuel
      (body_status body) (or_default (body_result body) "")
      (or_default (body_resultType body) "rejection")
      (tr ++ [EvRequest (getJob clusterId jobId 20); EvSleep 1000]).
Proof.
  intros Hst Hreply. cbn [polling.pollForJobCompletion_while].
  rewrite Hst. unfold request, sleep, emit. rewrite Hreply.
  now rewrite <- app_assoc.
Qed.

(** What the loop returns is terminal, and is what it started with, nothing
    having been asked, or what the last reply said. *)
Lemma pollForJobCompletion_while_returns (jobId : string) (fuel : nat)
    (status : option string) (result resultType : string) (tr tr' : Trace)
    (out : polling.JobOutcome) :
  polling.pollForJobCompletion_while client clusterId jobId fuel
    status result resultType tr = (Some (Normal out), tr') ->
  polling.terminal (polling.status out) = true
  /\ ((tr' = tr
       /\ out = {| polling.status := status; polling.result := result;
                   polling.resultType := resultType |})
      \/ reflects_last_getJob client clusterId out tr').
Proof.
  revert status result resultType tr.
  induction fuel as [| fuel IH]; intros status result resultType tr;
    cbn [polling.pollForJobCompletion_while];
    destruct (polling.terminal status) eqn:Hst;
    try (intros H; injection H as <- <-; simpl; auto);
    try discriminate.
  unfold request, sleep, emit.
  destruct (on_getJob client tr (getJob clusterId jobId 20))
    as [body |] eqn:Hreply; [| discriminate].
  rewrite <- app_assoc. simpl. intros Hrun.
  apply IH in Hrun. destruct Hrun as [Hterm [[-> ->] | Hlast]]; auto.
  split; [exact Hterm |]. right.
  exists tr, jobId, body. simpl. auto.
Qed.

(** As long as every reply is a status that is not terminal, the loop is
    still running after any number of passes, one request sent in each. *)
Lemma pollForJobCompletion_while_running (jobId : string) (fuel : nat)
    (status : option string) (result resultType : string) (tr : Trace) :
  (forall tr0, exists body,
      on_getJob client tr0 (getJob clusterId jobId 20) = Normal body
      /\ polling.terminal (body_status body) = false) ->
  polling.terminal status = false ->
  exists tr',
    polling.pollForJobCompletion_while client clusterId jobId fuel
      status result resultType tr = (None, tr')
    /\ length (requests tr') = (length (requests tr) + fuel)%nat.
Proof.
  intros Hpending. revert status result resultType tr.
  induction fuel as [| fuel IH]; intros status result resultType tr Hst.
  - simpl. rewrite Hst. exists tr. split; [reflexivity | lia].
  - destruct (Hpending tr) as (body & Hreply & Hbody).
    rewrite (pollForJobCompletion_while_step _ _ _ _ _ _ _ Hst Hreply).
    destruct (IH (body_status body) (or_default (body_result body) "")
                (or_default (body_resultType body) "rejection")
                (tr ++ [EvRequest (getJob clusterId jobId 20); EvSleep 1000])
                Hbody) as (tr' & -> & Hlen).
    exists tr'. split; [reflexivity |].
    rewrite Hlen, requests_app, length_app. simpl. lia.
Qed.

(** C8, amended. [createAndPollJob] returns only on a terminal status, and
    what it returns is what the last [getJob] reply said or, when the
    [createJob] reply was terminal already and no [getJob] was sent, what
    that reply said, an empty or absent result read as the empty string and
    an empty or absent result type as rejection.  It returns as soon as a
    reply is terminal, and there is no bound on the passes: as long as the
    replies are not terminal it is still polling after any number of them. *)
Theorem createAndPollJob_returns_terminal (toolName : string)
    (input : JsValue) :
  (forall fuel tr tr' out,
      polling.createAndPollJob client clusterId toolName input fuel tr
      = (Some (Normal out), tr') ->
      polling.terminal (polling.status out) = true
      /\ (reflects_last_getJob client clusterId out tr'
          \/ reflects_createJob client clusterId toolName input out tr'))
  /\ (forall fuel tr created body,
        on_createJob client tr (createJob toolName input clusterId 20)
        = Normal created ->
        polling.terminal (body_status created) = false ->
        on_getJob client (tr ++ [EvRequest (createJob toolName input clusterId 20)])
          (getJob clusterId (body_id created) 20) = Normal body ->
        polling.terminal (body_status body) = true ->
        polling.createAndPollJob client clusterId toolName input (S fuel) tr
        = (Some (Normal
                   {| polling.status := body_status body;
                      polling.result := or_default (body_result body) "";
                      polling.resultType :=
                        or_default (body_resultType body) "rejection" |}),
           tr ++ [EvRequest (createJob toolName input clusterId 20);
                  EvRequest (getJob clusterId (body_id created) 20);
                  EvSleep 1000]))
  /\ (forall fuel tr created,
        on_createJob client tr (createJob toolName input clusterId 20)
        = Normal created ->
        polling.terminal (body_status created) = false ->
        (forall tr0, exists body,
            on_getJob client tr0 (getJob clusterId (body_id created) 20)
            = Normal body
            /\ polling.terminal (body_status body) = false) ->
        exists tr',
          polling.createAndPollJob client clusterId toolName input fuel tr
          = (None, tr')
          /\ length (requests tr') = (length (requests tr) + 1 + fuel)%nat).
Proof.
  repeat split.
  - revert H. unfold polling.createAndPollJob, polling.pollForJobCompletion,
      request.
    destruct (on_createJob client tr _) as [created |]; [| discriminate].
    intros H. now apply pollForJobCompletion_while_returns in H.
  - revert H. unfold polling.createAndPollJob, polling.pollForJobCompletion,
      request.
    destruct (on_createJob client tr _) as [created |] eqn:Hcreated;
      [| discriminate].
    intros H. apply pollForJobCompletion_while_returns in H.
    destruct H as [_ [[-> ->] | Hlast]]; [right | now left].
    exists tr, created. simpl. auto.
  - intros fuel tr created body Hcreated Hpending Hreply Hdone.
    unfold polling.createAndPollJob, polling.pollForJobCompletion, request.
    rewrite Hcreated.
    rewrite (pollForJobCompletion_while_step _ _ _ _ _ _ _ Hpending Hreply).
    rewrite (pollForJobCompletion_while_terminal _ _ _ _ _ _ Hdone).
    now rewrite <- app_assoc.
  - intros fuel tr created Hcreated Hpending Hreplies.
    unfold polling.createAndPollJob, polling.pollForJobCompletion, request.
    rewrite Hcreated.
    destruct (pollForJobCompletion_while_running (body_id created) fuel
                (body_status created)
                (or_default (body_result created) "")
                (or_default (body_resultType created) "rejection")
                (tr ++ [EvRequest (createJob toolName input clusterId 20)])
                Hreplies Hpending) as (tr' & -> & Hlen).
    exists tr'. split; [reflexivity |].
    rewrite Hlen, requests_app, length_app. simpl. lia.
Qed.

End CreateAndPoll.

(** ** The properties on the sample deployment *)

(** [hello] is sent a name: it is called once, and its greeting goes back as
    a success. *)
Lemma processCall_valid_input_reported_witness :
  exists evs elapsed,
    snd (polling.processCall sample.lib sample.agent
           (mkJob "job-1" "hello" sample.ada) [])
    = [] ++ evs
    /\ invocations evs = [(Callable sample.greet, [sample.ada])]
    /\ requests evs
       = [createJobResult "job-1" "cluster" (JStr "Hello Ada") success elapsed].
Proof.
  apply (processCall_valid_input_reported sample.lib sample.agent
           (mkJob "job-1" "hello" sample.ada) [] sample.hello
           [("name", JStr "Ada")] sample.greet (JStr "Hello Ada"));
    reflexivity.
Defined.

(** [hello] is sent an array: a rejection goes back, nothing else runs. *)
Lemma processCall_malformed_input_rejected_witness :
  exists evs,
    snd (polling.processCall sample.lib sample.agent
           (mkJob "job-2" "hello" (JArr [JStr "Ada"])) [])
    = [] ++ evs
    /\ requests evs
       = [createJobResult "job-2" "cluster"
            (serializeError sample.lib
               (Error
                  "Function was called with invalid invalid format. Expected an object."))
            rejection 0]
    /\ validations evs = []
    /\ invocations evs = [].
Proof.
  apply (processCall_malformed_input_rejected sample.lib sample.agent
           (mkJob "job-2" "hello" (JArr [JStr "Ada"])) [] sample.hello);
    [reflexivity | right; left; reflexivity].
Defined.

(** [hello] is sent a name that is a number: the validation error goes back
    as a rejection. *)
Lemma processCall_invalid_input_rejected_witness :
  exists evs,
    snd (polling.processCall sample.lib sample.agent
           (mkJob "job-3" "hello" (JObj [("name", JNum 7)])) [])
    = [] ++ evs
    /\ requests evs
       = [createJobResult "job-3" "cluster" (JObj [("name", JStr "ZodError")])
            rejection 0]
    /\ invocations evs = [].
Proof.
  apply (processCall_invalid_input_rejected sample.lib sample.agent
           (mkJob "job-3" "hello" (JObj [("name", JNum 7)])) [] sample.hello
           [("name", JNum 7)]
           (ZodError [{| issue_path := [JStr "name"];
                         issue_message := "Required" |}]));
    reflexivity.
Defined.

(** A job for [goodbye], which the agent does not have: nothing goes back. *)
Lemma processCall_unknown_function_dropped_witness :
  exists evs,
    polling.processCall sample.lib sample.agent
      (mkJob "job-4" "goodbye" sample.ada) []
    = (Normal tt, [] ++ evs)
    /\ logged evs = ["Received call for unknown function"]
    /\ requests evs = []
    /\ reports_for "job-4" evs = []
    /\ validations evs = []
    /\ invocations evs = [].
Proof.
  apply (processCall_unknown_function_dropped sample.lib sample.agent
           (mkJob "job-4" "goodbye" sample.ada) []).
  intros t [<- | []]. discriminate.
Defined.

(** [hello] is sent no input at all: the rejection carries time 0. *)
Lemma processCall_rejected_time_zero_witness :
  exists evs content,
    snd (polling.processCall sample.lib sample.agent
           (mkJob "job-5" "hello" JUndefined) [])
    = [] ++ evs
    /\ invocations evs = []
    /\ requests evs
       = [createJobResult "job-5" "cluster" content rejection 0].
Proof.
  apply (processCall_rejected_time_zero sample.lib sample.agent
           (mkJob "job-5" "hello" JUndefined) [] sample.hello);
    [reflexivity | left; right; right; discriminate].
Defined.

(** [hello] registered twice, on a client that has it and on a fresh one. *)
Lemma register_duplicate_name_rejected_witness :
  agentrpc.register sample.hello (sample.registered, [])
  = (Abrupt (AgentRPCError "Tool name 'hello' is already registered."),
     (sample.registered, []))
  /\ agentrpc.register sample.hello
       (snd (agentrpc.register sample.hello (sample.fresh, [])))
     = (Abrupt (AgentRPCError "Tool name 'hello' is already registered."),
        snd (agentrpc.register sample.hello (sample.fresh, []))).
Proof.
  split.
  - apply (proj1 (register_duplicate_name_rejected sample.registered []
                    sample.hello sample.hello)).
    reflexivity.
  - apply (proj2 (register_duplicate_name_rejected sample.fresh []
                    sample.hello sample.hello));
      reflexivity.
Defined.

(** After [listen] on the client with [hello]: [register] and [listen] both
    throw. *)
Lemma listen_then_register_and_listen_rejected_witness :
  (exists message,
      agentrpc.register sample.hello sample.listening
      = (Abrupt (AgentRPCError message), sample.listening))
  /\ agentrpc.listen sample.lib sample.listening
     = (Abrupt (AgentRPCError "Tools already listening"), sample.listening).
Proof.
  destruct (listen_then_register_and_listen_rejected sample.lib
              sample.registered (fst sample.listening) []
              (snd sample.listening) (Normal tt) eq_refl eq_refl)
    as (_ & _ & Hregister & Hlisten).
  split.
  - destruct (Hregister sample.hello (snd sample.listening))
      as (message & H & _).
    now exists message.
  - apply Hlisten.
Defined.

(** No options, a credential of two pieces, and a credential of three. *)
Lemma constructor_checks_credential_witness :
  agentrpc.constructor sample.lib (fun _ _ => sample.client) None
  = Abrupt (AgentRPCError "No API Secret provided.")
  /\ agentrpc.constructor sample.lib (fun _ _ => sample.client)
       (Some sample.short_options)
     = Abrupt (AgentRPCError "Invalid API Secret.")
  /\ exists secret,
       agentrpc.options_apiSecret sample.options = Some secret
       /\ well_formed_credential secret
       /\ nth_error (split "_" secret) 1
          = Some (agentrpc.getClusterId sample.fresh).
Proof.
  split; [| split].
  - apply (proj1 (constructor_checks_credential sample.lib
                    (fun _ _ => sample.client) None)).
    left. reflexivity.
  - apply (proj1 (proj2 (constructor_checks_credential sample.lib
                           (fun _ _ => sample.client)
                           (Some sample.short_options)))
             "sk_cluster");
      [reflexivity | discriminate |].
    intros (cluster & third & rest & H & _). discriminate.
  - apply (proj1 (proj2 (proj2 (constructor_checks_credential sample.lib
                                  (fun _ _ => sample.client)
                                  (Some sample.options))))
             sample.fresh).
    reflexivity.
Defined.

(** An agent without a cluster id fails every pass and is stopped after its
    third; an agent nobody stops is still running after fifty. *)
Lemma runLoop_survives_failures_witness :
  polling.pollIteration sample.lib sample.nameless []
  = (Abrupt (Error "Failed to poll. Could not find clusterId"), [])
  /\ polling.loopBody sample.lib sample.stopped 0
       (polling.set_polling true sample.nameless, [])
     = (Normal 1%nat,
        (polling.set_polling true sample.nameless,
         [failure_entry 0 (Error "Failed to poll. Could not find clusterId");
          EvSleep 0]))
  /\ fst (polling.runLoop sample.lib sample.stopped 3 (sample.nameless, []))
     = Some (Normal tt)
  /\ polling.polling
       (fst (snd (polling.runLoop sample.lib sample.stopped 3
                    (sample.nameless, []))))
     = false
  /\ fst (polling.runLoop sample.lib (fun _ => false) 50 (sample.agent, []))
     = None.
Proof.
  pose proof (runLoop_survives_failures sample.lib sample.stopped)
    as (Hmissing & Hfailure & _ & Hover & _).
  pose proof (runLoop_survives_failures sample.lib (fun _ => false))
    as (_ & _ & _ & _ & Hrunning).
  split; [apply Hmissing; reflexivity |].
  split; [apply (Hfailure (polling.set_polling true sample.nameless) [] []);
          reflexivity |].
  destruct (Hover 3%nat (sample.nameless, []) (Normal tt)
              (snd (polling.runLoop sample.lib sample.stopped 3
                      (sample.nameless, []))) eq_refl)
    as (_ & Hflag & _).
  split; [reflexivity |].
  split; [exact Hflag |].
  apply Hrunning. reflexivity.
Defined.

(** A job that is pending when created and done when first asked about. *)
Lemma createAndPollJob_returns_terminal_witness :
  polling.createAndPollJob sample.client "cluster" "hello" sample.ada 1 []
  = (Some (Normal {| polling.status := Some "done";
                     polling.result := "Hello Ada";
                     polling.resultType := "resolution" |}),
     [EvRequest (createJob "hello" sample.ada "cluster" 20);
      EvRequest (getJob "cluster" "job-7" 20);
      EvSleep 1000])
  /\ polling.terminal (Some "done") = true.
Proof.
  pose proof (createAndPollJob_returns_terminal sample.client "cluster"
                "hello" sample.ada) as (Hreturns & Hstep & _).
  assert (Hrun : polling.createAndPollJob sample.client "cluster" "hello"
                   sample.ada 1 []
                 = (Some (Normal {| polling.status := Some "done";
                                    polling.result := "Hello Ada";
                                    polling.resultType := "resolution" |}),
                    [EvRequest (createJob "hello" sample.ada "cluster" 20);
                     EvRequest (getJob "cluster" "job-7" 20);
                     EvSleep 1000])).
  { apply (Hstep 0%nat [] _ _ eq_refl eq_refl eq_refl eq_refl). }
  split; [exact Hrun |].
  apply (Hreturns _ _ _ _ Hrun).
Defined.

(** C8, as stated, fails: the [createJob] reply is final, [createAndPollJob]
    returns what that reply said without a single [getJob], so what it
    returns is no [getJob] reply's; here it is not even what the coordinator
    would have said had it been asked. *)
Lemma createAndPollJob_without_getJob :
  polling.createAndPollJob sample.prompt_client "cluster" "hello" sample.ada
    3 []
  = (Some (Normal {| polling.status := Some "done";
                     polling.result := "Hello Ada";
                     polling.resultType := "resolution" |}),
     [EvRequest (createJob "hello" sample.ada "cluster" 20)])
  /\ ~ reflects_last_getJob sample.prompt_client "cluster"
        {| polling.status := Some "done";
           polling.result := "Hello Ada";
           polling.resultType := "resolution" |}
        [EvRequest (createJob "hello" sample.ada "cluster" 20)].
Proof.
  split; [reflexivity |].
  intros (before & jobId & body & Htrace & _).
  destruct before as [| ? [| ? ?]]; discriminate.
Qed.

(** * Further properties *)

(** ** One job, and a batch of jobs *)

Section Batch.

Variable lib : Imports.
Variable self : polling.PollingAgent.





(** An iteration whose [listJobs] is rejected throws what it was rejected
    with, having sent that one request and processed no job. *)
Lemma pollIteration_listJobs_rejected (tr : Trace) (e : Thrown) :
  polling.clusterId self <> "" ->
  on_listJobs (polling.jsonRpcClient self) tr
    (listJobs (polling.clusterId self)
       (join "," (map name (polling.tools self))) "pending" true 10 20)
  = Abrupt e ->
  polling.pollIteration lib self tr
  = (Abrupt e,
     tr ++ [EvRequest
              (listJobs (polling.clusterId self)
                 (join "," (map name (polling.tools self)))
                 "pending" true 10 20)]).
Proof.
  intros Hcluster Hjobs. apply String.eqb_neq in Hcluster.
  unfold polling.pollIteration. rewrite Hcluster.
  unfold bind, request. now rewrite Hjobs.
Qed.

End Batch.

(** ** The registry *)

Lemma own_none_not_in (reg : agentrpc.Registry) (key : string) :
  agentrpc.own reg key = None <-> ~ In key (map fst reg).
Proof.
  induction reg as [| [k v] rest IH]; simpl; [tauto |].
  destruct (k =? key) eqn:E.
  - apply String.eqb_eq in E. split; [discriminate | intros H; tauto].
  - apply String.eqb_neq in E. rewrite IH. tauto.
Qed.

Lemma own_some_in (reg : agentrpc.Registry) (key : string)
    (v : ToolRegistrationInput) :
  agentrpc.own reg key = Some v -> In (key, v) reg.
Proof.
  induction reg as [| [k x] rest IH]; simpl; [discriminate |].
  destruct (k =? key) eqn:E.
  - apply String.eqb_eq in E. intros H. injection H as <-. subst. now left.
  - intros H. right. now apply IH.
Qed.

Lemma in_own (reg : agentrpc.Registry) (key : string)
    (v : ToolRegistrationInput) :
  NoDup (map fst reg) -> In (key, v) reg -> agentrpc.own reg key = Some v.
Proof.
  induction reg as [| [k x] rest IH]; simpl; [contradiction |].
  intros Hnd [H | H]; inversion Hnd as [| ? ? Hnot Hrest]; subst.
  - injection H as -> ->. now rewrite String.eqb_refl.
  - destruct (k =? key) eqn:E; [| now apply IH].
    apply String.eqb_eq in E. subst k. exfalso. apply Hnot.
    apply (in_map fst) in H. exact H.
Qed.

(** Writing a key the registry does not have adds it last. *)
Lemma assign_new (reg : agentrpc.Registry) (key : string)
    (v : ToolRegistrationInput) :
  agentrpc.own reg key = None -> agentrpc.assign reg key v = reg ++ [(key, v)].
Proof.
  induction reg as [| [k x] rest IH]; simpl; [reflexivity |].
  destruct (k =? key); [discriminate |]. intros H. now rewrite IH.
Qed.

Lemma own_app_other (reg : agentrpc.Registry) (key other : string)
    (v : ToolRegistrationInput) :
  other <> key ->
  agentrpc.own (reg ++ [(key, v)]) other = agentrpc.own reg other.
Proof.
  intros Hne. induction reg as [| [k x] rest IH]; simpl.
  - apply String.eqb_neq in Hne. rewrite String.eqb_sym. now rewrite Hne.
  - now destruct (k =? other).
Qed.

Lemma has_false (reg : agentrpc.Registry) (key : string) :
  agentrpc.has reg key = false <->
  agentrpc.own reg key = None /\ agentrpc.inherited key = false.
Proof.
  unfold agentrpc.has. destruct (agentrpc.own reg key); split;
    try discriminate; try tauto.
  intros [H _]. discriminate.
Qed.

(** X2. [register] returns exactly when the name is free (neither in the
    registry nor a property every object has), no agent has been made and the
    handler is a function; it then logs the registration and adds it to the
    registry, last, every other name reading as before. *)
Theorem register_succeeds_iff (self : agentrpc.AgentRPC) (tr : Trace)
    (tool : ToolRegistrationInput) :
  (agentrpc.has (agentrpc.toolsRegistry self) (name tool) = false
   /\ agentrpc.pollingAgents self = []
   /\ typeof_handler (handler tool) = "function"
   <-> exists s', agentrpc.register tool (self, tr) = (Normal tt, s'))
  /\ (forall s',
        agentrpc.register tool (self, tr) = (Normal tt, s') ->
        s' = (agentrpc.set_toolsRegistry
                (agentrpc.toolsRegistry self ++ [(name tool, tool)]) self,
              tr ++ [register_entry tool])
        /\ agentrpc.own (agentrpc.toolsRegistry (fst s')) (name tool)
           = Some tool
        /\ forall other,
             other <> name tool ->
             agentrpc.own (agentrpc.toolsRegistry (fst s')) other
             = agentrpc.own (agentrpc.toolsRegistry self) other).
Proof.
  assert (Hrun : forall s',
             agentrpc.register tool (self, tr) = (Normal tt, s') ->
             agentrpc.has (agentrpc.toolsRegistry self) (name tool) = false
             /\ agentrpc.pollingAgents self = []
             /\ typeof_handler (handler tool) = "function"
             /\ s' = (agentrpc.set_toolsRegistry
                        (agentrpc.toolsRegistry self ++ [(name tool, tool)])
                        self,
                      tr ++ [register_entry tool])).
  { intros s'. unfold agentrpc.register, bind, this, throw. simpl.
    destruct (agentrpc.has _ _) eqn:Hhas; [discriminate |].
    destruct (agentrpc.pollingAgents self) as [| a rest] eqn:Hagents;
      [| discriminate].
    simpl.
    destruct (typeof_handler (handler tool) =? "function") eqn:Hfun;
      [| discriminate].
    simpl. unfold on_trace, update, agentrpc.log, debug, emit. simpl.
    intros H. injection H as <-.
    apply String.eqb_eq in Hfun. apply has_false in Hhas as [Hown _].
    rewrite tool_eta, (assign_new _ _ _ Hown). auto. }
  split.
  - split.
    + intros (Hhas & Hagents & Hfun).
      unfold agentrpc.register, bind, this, throw. simpl.
      rewrite Hhas, Hagents. simpl. rewrite Hfun. simpl.
      eexists. reflexivity.
    + intros (s' & H). apply Hrun in H. tauto.
  - intros s' H. destruct (Hrun s' H) as (Hhas & _ & _ & ->).
    split; [reflexivity |]. simpl. apply has_false in Hhas as [Hown _].
    split.
    + rewrite <- (assign_new _ _ _ Hown). apply own_assign.
    + intros other Hne. now apply own_app_other.
Qed.

(** X3. When [register] does not return, it throws a configuration error
    and changes nothing, neither the client nor the trace; a handler that is
    not a function is refused as such when nothing else is in the way. *)
Theorem register_failure_changes_nothing (self : agentrpc.AgentRPC)
    (tr : Trace) (tool : ToolRegistrationInput) :
  (forall e s',
      agentrpc.register tool (self, tr) = (Abrupt e, s') ->
      is_AgentRPCError e = true /\ s' = (self, tr))
  /\ (agentrpc.has (agentrpc.toolsRegistry self) (name tool) = false ->
      agentrpc.pollingAgents self = [] ->
      typeof_handler (handler tool) <> "function" ->
      agentrpc.register tool (self, tr)
      = (Abrupt (AgentRPCError "handler must be a function."), (self, tr))).
Proof.
  split.
  - intros e s'. unfold agentrpc.register, bind, this, throw. simpl.
    destruct (agentrpc.has _ _);
      [intros H; injection H as <- <-; auto |].
    destruct (0 <? _)%nat; [intros H; injection H as <- <-; auto |].
    destruct (negb _); [intros H; injection H as <- <-; auto |].
    discriminate.
  - intros Hhas Hagents Hfun.
    unfold agentrpc.register, bind, this, throw. simpl.
    rewrite Hhas, Hagents. simpl.
    apply String.eqb_neq in Hfun. now rewrite Hfun.
Qed.

(** X4. A name that every object has, [toString] or [constructor] say, is
    taken from the start: [register] refuses it as already registered on any
    client, a fresh one included. *)
Theorem register_refuses_prototype_names (self : agentrpc.AgentRPC)
    (tr : Trace) (tool : ToolRegistrationInput) :
  In (name tool) agentrpc.Object_prototype ->
  agentrpc.register tool (self, tr)
  = (Abrupt (AgentRPCError
               ("Tool name '" ++ name tool ++ "' is already registered.")),
     (self, tr)).
Proof.
  intros Hin.
  assert (Hhas : agentrpc.has (agentrpc.toolsRegistry self) (name tool) = true).
  { unfold agentrpc.has. destruct (agentrpc.own _ _); [reflexivity |].
    unfold agentrpc.inherited. apply existsb_exists.
    exists (name tool). split; [exact Hin | apply String.eqb_refl]. }
  unfold agentrpc.register, bind, this, throw. simpl. now rewrite Hhas.
Qed.

(** X5. [register] keeps the registry well formed, however it completes: no
    name twice, every registration under its own name, none under a name
    every object has; and it never touches the agents. *)
Theorem register_keeps_registry_ok (self : agentrpc.AgentRPC) (tr : Trace)
    (tool : ToolRegistrationInput) (c : Completion unit)
    (s' : agentrpc.AgentRPC * Trace) :
  registry_ok (agentrpc.toolsRegistry self) ->
  agentrpc.register tool (self, tr) = (c, s') ->
  registry_ok (agentrpc.toolsRegistry (fst s'))
  /\ agentrpc.pollingAgents (fst s') = agentrpc.pollingAgents self.
Proof.
  intros (Hnd & Hname & Hproto).
  unfold agentrpc.register, bind, this, throw. simpl.
  destruct (agentrpc.has _ _) eqn:Hhas;
    [intros H; injection H as <- <-; repeat split; auto |].
  destruct (0 <? _)%nat; [intros H; injection H as <- <-; repeat split; auto |].
  destruct (negb _); [intros H; injection H as <- <-; repeat split; auto |].
  unfold on_trace, update, agentrpc.log, debug, emit. simpl.
  intros H. injection H as <- <-. simpl.
  apply has_false in Hhas as [Hown Hinh].
  rewrite tool_eta, (assign_new _ _ _ Hown).
  split; [| reflexivity]. repeat split.
  - rewrite map_app. simpl. apply NoDup_app; [exact Hnd | | ].
    + repeat constructor. simpl. tauto.
    + intros k Hk [<- | []]. now apply own_none_not_in in Hown.
  - apply Forall_app. split; [exact Hname | now repeat constructor].
  - apply Forall_app. split; [exact Hproto | now repeat constructor].
Qed.

(** ** From the registry to the agent *)


Lemma insert_ascending_perm (i : N) (v : ToolRegistrationInput)
    (xs : list (N * ToolRegistrationInput)) :
  Permutation (agentrpc.insert_ascending i v xs) ((i, v) :: xs).
Proof.
  induction xs as [| [j w] rest IH]; simpl; [reflexivity |].
  destruct (i <? j)%N; [reflexivity |].
  rewrite IH. apply perm_swap.
Qed.

(** [Object.values] lists every registration of the registry, once each. *)
Lemma Object_values_perm (reg : agentrpc.Registry) :
  Permutation (agentrpc.Object_values reg) (map snd reg).
Proof.
  unfold agentrpc.Object_values.
  induction reg as [| [k v] rest IH]; simpl; [reflexivity |].
  destruct (agentrpc.array_index k) as [i |].
  - rewrite insert_ascending_perm. simpl. now constructor.
  - rewrite <- IH. symmetry. apply Permutation_middle.
Qed.

(** Without a key that is an array index, they come in the order they were
    registered in. *)
Lemma Object_values_named (reg : agentrpc.Registry) :
  Forall (fun kv => agentrpc.array_index (fst kv) = None) reg ->
  agentrpc.Object_values reg = map snd reg.
Proof.
  unfold agentrpc.Object_values.
  induction reg as [| [k v] rest IH]; intros H; [reflexivity |].
  inversion H as [| ? ? Hk Hrest]; subst. simpl in *. rewrite Hk.
  specialize (IH Hrest).
  destruct (agentrpc.indexed rest) eqn:E.
  - simpl in *. now rewrite IH.
  - exfalso. clear IH. revert E. clear -Hrest.
    induction rest as [| [k' v'] rest IH]; simpl; [discriminate |].
    inversion Hrest as [| ? ? Hk' Hrest']; subst. simpl in Hk'.
    rewrite Hk'. now apply IH.
Qed.

Lemma find_by_name (tools : list ToolRegistrationInput)
    (tool : ToolRegistrationInput) :
  NoDup (map name tools) -> In tool tools ->
  find (fun fn => name fn =? name tool) tools = Some tool.
Proof.
  induction tools as [| t rest IH]; simpl; [contradiction |].
  intros Hnd [-> | Hin]; [now rewrite String.eqb_refl |].
  inversion Hnd as [| ? ? Hnot Hrest]; subst.
  destruct (name t =? name tool) eqn:E; [| now apply IH].
  apply String.eqb_eq in E. exfalso. apply Hnot. rewrite E.
  now apply in_map.
Qed.

Lemma find_no_name (tools : list ToolRegistrationInput) (key : string) :
  ~ In key (map name tools) ->
  find (fun fn => name fn =? key) tools = None.
Proof.
  induction tools as [| t rest IH]; simpl; [reflexivity |].
  intros Hnot. destruct (name t =? key) eqn:E.
  - apply String.eqb_eq in E. tauto.
  - apply IH. tauto.
Qed.

Lemma registry_names (reg : agentrpc.Registry) :
  Forall (fun kv => name (snd kv) = fst kv) reg ->
  map name (map snd reg) = map fst reg.
Proof.
  induction 1 as [| [k v] rest Hk _ IH]; simpl; [reflexivity |].
  simpl in Hk. now rewrite Hk, IH.
Qed.

(** What [start] does on the agent [listen] makes. *)
Lemma start_run (lib : Imports) (agent : polling.PollingAgent) (tr : Trace) :
  let metas :=
    map (fun func =>
           {| meta_name := name func;
              meta_description := description func;
              meta_schema :=
                JSON_stringify lib
                  (if isZodType (schema func)
                   then zodToJsonSchema lib (schema func)
                   else schema_value (schema func));
              meta_config := config func |})
      (polling.tools agent) in
  let logs :=
    [EvLog "agentrpc:client:polling-agent" "Starting polling agent" [];
     EvLog "agentrpc:client:polling-agent" "registering machine"
       [("tools", LogStrings (map name (polling.tools agent)))]] in
  polling.start lib (agent, tr)
  = match on_createMachine (polling.jsonRpcClient agent) (tr ++ logs)
            (createMachine (Some metas)) with
    | Normal _ =>
        (Normal tt,
         (polling.set_polling true agent,
          tr ++ logs ++ [EvRequest (createMachine (Some metas))]))
    | Abrupt e =>
        (Abrupt e,
         (agent, tr ++ logs ++ [EvRequest (createMachine (Some metas))]))
    end.
Proof.
  intros metas logs.
  unfold polling.start, bind, this, on_trace, update, polling.registerMachine,
    polling.log, debug, emit, request, bind, ret.
  simpl. rewrite <- !app_assoc. simpl. fold metas.
  destruct (on_createMachine _ _ _); reflexivity.
Qed.

Section Listen.

Variable lib : Imports.


(** X7. The agent [listen] makes dispatches by the registry: a job for a
    registered name goes to the registration made under that name, a job
    for any other name to none. *)
Theorem listen_dispatches_by_registry (self self' : agentrpc.AgentRPC)
    (tr tr' : Trace) (c : Completion unit) :
  registry_ok (agentrpc.toolsRegistry self) ->
  agentrpc.pollingAgents self = [] ->
  agentrpc.listen lib (self, tr) = (c, (self', tr')) ->
  exists agent,
    agentrpc.pollingAgents self' = [agent]
    /\ polling.clusterId agent = agentrpc.getClusterId self
    /\ forall call,
         registration_of agent call
         = agentrpc.own (agentrpc.toolsRegistry self) (function call).
Proof.
  intros (Hnd & Hname & _) Hnone.
  unfold agentrpc.listen, bind, this, throw. simpl.
  rewrite Hnone. simpl. rewrite start_run. simpl.
  assert (Hfind : forall call,
             find (fun fn => name fn =? function call)
               (agentrpc.Object_values (agentrpc.toolsRegistry self))
             = agentrpc.own (agentrpc.toolsRegistry self) (function call)).
  { intros call.
    pose proof (Object_values_perm (agentrpc.toolsRegistry self)) as Hperm.
    assert (Hnames : NoDup (map name
                              (agentrpc.Object_values
                                 (agentrpc.toolsRegistry self)))).
    { apply (Permutation_NoDup
               (l := map name (map snd (agentrpc.toolsRegistry self)))).
      - apply Permutation_map. now symmetry.
      - now rewrite registry_names. }
    destruct (agentrpc.own (agentrpc.toolsRegistry self) (function call))
      as [tool |] eqn:Hown.
    - apply own_some_in in Hown.
      assert (Hkey : name tool = function call).
      { rewrite Forall_forall in Hname. apply (Hname _ Hown). }
      rewrite <- Hkey. apply find_by_name; [exact Hnames |].
      apply (Permutation_in _ (Permutation_sym Hperm)).
      apply (in_map snd) in Hown. exact Hown.
    - apply find_no_name. apply own_none_not_in in Hown.
      intros Hin. apply Hown. rewrite <- (registry_names _ Hname).
      revert Hin. apply Permutation_in. now apply Permutation_map. }
  destruct (on_createMachine _ _ _); intros H; injection H as <- <- <-;
    eexists; (split; [reflexivity |]); (split; [reflexivity |]);
    intros call; unfold registration_of; simpl; apply Hfind.
Qed.

(** Every agent stopped, in order: each gets its flag down and its entry in
    the log, and keeps the rest. *)
Lemma stop_all_run (agents : list polling.PollingAgent) (tr : Trace) :
  agentrpc.stop_all agents tr
  = (map (polling.set_polling false) agents,
     tr ++ repeat stop_entry (length agents)).
Proof.
  revert tr. induction agents as [| agent rest IH]; intros tr; simpl.
  - now rewrite app_nil_r.
  - unfold polling.stop, bind, on_trace, update, polling.log, debug, emit.
    simpl. rewrite IH. unfold stop_entry. now rewrite <- app_assoc.
Qed.

(** X8. [unlisten] calls [stop()] on every agent and returns: each agent's
    flag is down, nothing is sent, and the agents stay in the client with
    their tools, so that a [listen] after an [unlisten] still throws. *)
Theorem unlisten_stops_and_keeps_agents (self : agentrpc.AgentRPC)
    (tr : Trace) :
  exists self',
    agentrpc.unlisten (self, tr)
    = (Normal tt,
       (self', tr ++ repeat stop_entry (length (agentrpc.pollingAgents self))))
    /\ agentrpc.pollingAgents self'
       = map (polling.set_polling false) (agentrpc.pollingAgents self)
    /\ agentrpc.toolsRegistry self' = agentrpc.toolsRegistry self
    /\ (agentrpc.pollingAgents self <> [] ->
        forall tr2,
          agentrpc.listen lib (self', tr2)
          = (Abrupt (AgentRPCError "Tools already listening"), (self', tr2))).
Proof.
  unfold agentrpc.unlisten. simpl. rewrite stop_all_run.
  eexists. split; [reflexivity |]. simpl.
  split; [reflexivity |]. split; [reflexivity |].
  intros Hsome tr2. unfold agentrpc.listen, bind, this, throw. simpl.
  destruct (agentrpc.pollingAgents self); [contradiction | reflexivity].
Qed.

End Listen.

(** ** More of the poll loop *)

Section LoopRuns.

Variable lib : Imports.
Variable stopped : Trace -> bool.

(** The entries of [n] failed passes in a row, the first at count
    [failureCount]: each pass logs the count it found and sleeps. *)
Lemma failed_passes_shift (e : Thrown) (ms : Z) (failureCount n : nat) :
  flat_map (fun k => [failure_entry (failureCount + k) e; EvSleep ms])
    (seq 1 n)
  = flat_map (fun k => [failure_entry (S failureCount + k) e; EvSleep ms])
      (seq 0 n).
Proof.
  rewrite <- seq_shift, flat_map_concat_map, map_map,
    <- flat_map_concat_map.
  apply flat_map_ext. intros k. now rewrite Nat.add_succ_r.
Qed.

Lemma runLoop_while_without_clusterId (self : polling.PollingAgent)
    (n failureCount : nat) (tr : Trace) :
  polling.clusterId self = "" ->
  polling.polling self = true ->
  (forall tr0, stopped tr0 = false) ->
  polling.runLoop_while lib stopped n failureCount (self, tr)
  = (None,
     (self,
      tr ++ flat_map
              (fun k =>
                 [failure_entry (failureCount + k)
                    (Error "Failed to poll. Could not find clusterId");
                  EvSleep (polling.retryAfter self * 1000)])
              (seq 0 n))).
Proof.
  intros Hcluster Hflag Hnever. revert failureCount tr.
  induction n as [| n IH]; intros failureCount tr;
    cbn [polling.runLoop_while fst]; rewrite Hflag.
  - simpl. now rewrite app_nil_r.
  - rewrite (loopBody_failure lib stopped self tr tr failureCount _
               (pollIteration_without_clusterId lib self tr Hcluster)).
    rewrite suspended_run, Hnever. simpl snd. rewrite IH.
    cbn [seq flat_map]. rewrite failed_passes_shift, Nat.add_0_r.
    now rewrite <- app_assoc.
Qed.

Lemma runLoop_while_silent (fuel : nat) :
  forall (self : polling.PollingAgent) (failureCount : nat) (tr : Trace),
    polling.clusterId self = "" ->
    let tr' :=
      snd (snd (polling.runLoop_while lib stopped fuel failureCount
                  (self, tr))) in
    requests tr' = requests tr /\ invocations tr' = invocations tr.
Proof.
  induction fuel as [| fuel IH]; intros self failureCount tr Hcluster;
    cbv zeta; cbn [polling.runLoop_while fst];
    destruct (polling.polling self); try (split; reflexivity).
  rewrite (loopBody_failure lib stopped self tr tr failureCount _
             (pollIteration_without_clusterId lib self tr Hcluster)).
  rewrite suspended_run.
  destruct (stopped _); simpl snd.
  - destruct (IH (polling.set_polling false self) (S failureCount)
                ((tr ++ [failure_entry failureCount
                           (Error "Failed to poll. Could not find clusterId");
                         EvSleep (polling.retryAfter self * 1000)])
                 ++ [stop_entry]) Hcluster) as [Hr Hi].
    cbv zeta in Hr, Hi.
    split; (etransitivity; [first [apply Hr | apply Hi] |]);
      rewrite ?requests_app, ?invocations_app; simpl;
      now rewrite !app_nil_r.
  - destruct (IH self (S failureCount)
                (tr ++ [failure_entry failureCount
                          (Error "Failed to poll. Could not find clusterId");
                        EvSleep (polling.retryAfter self * 1000)])
                Hcluster) as [Hr Hi].
    cbv zeta in Hr, Hi.
    split; (etransitivity; [first [apply Hr | apply Hi] |]);
      rewrite ?requests_app, ?invocations_app; simpl;
      now rewrite !app_nil_r.
Qed.

(** X9. An agent without a cluster id never reaches the coordinator: however
    long its loop runs and whenever it is stopped, it sends no request and
    invokes no handler; and while nobody stops it, pass [k] does nothing but
    log the failure with count [k] and sleep. *)
Theorem runLoop_without_clusterId (self : polling.PollingAgent) (tr : Trace) :
  polling.clusterId self = "" ->
  (forall fuel,
      let tr' := snd (snd (polling.runLoop lib stopped fuel (self, tr))) in
      requests tr' = requests tr /\ invocations tr' = invocations tr)
  /\ ((forall tr0, stopped tr0 = false) ->
      forall n,
        polling.runLoop lib stopped n (self, tr)
        = (None,
           (polling.set_polling true self,
            tr ++ flat_map
                    (fun k =>
                       [failure_entry k
                          (Error "Failed to poll. Could not find clusterId");
                        EvSleep (polling.retryAfter self * 1000)])
                    (seq 0 n)))).
Proof.
  intros Hcluster. split.
  - intros fuel. unfold polling.runLoop. simpl fst. simpl snd.
    now apply (runLoop_while_silent fuel (polling.set_polling true self)).
  - intros Hnever n. unfold polling.runLoop. simpl fst. simpl snd.
    now rewrite runLoop_while_without_clusterId.
Qed.

(** X10. A pass whose iteration returns after [failureCount] failures in a
    row logs that the loop recovered after that many, once, and sleeps; at
    count zero it only sleeps.  Either way the next pass starts at zero. *)
Theorem loopBody_recovery (self : polling.PollingAgent) (tr tr1 : Trace)
    (failureCount : nat) :
  polling.pollIteration lib self tr = (Normal tt, tr1) ->
  polling.loopBody lib stopped failureCount (self, tr)
  = (Normal 0%nat,
     snd (polling.suspended stopped
            (self,
             tr1 ++ match failureCount with
                    | O => []
                    | S _ => [recovery_entry failureCount]
                    end
                 ++ [EvSleep (polling.retryAfter self * 1000)]))).
Proof.
  intros Hiter.
  unfold polling.loopBody, bind, this, try_catch, on_trace, sleep,
    polling.log, debug, emit, ret.
  simpl. rewrite Hiter.
  destruct failureCount; simpl; rewrite !suspended_run;
    rewrite <- ?app_assoc; reflexivity.
Qed.

End LoopRuns.

(** ** More of [createAndPollJob] *)

Section CreateAndPollMore.

Variable client : JSONRPCClient.
Variable clusterId : string.

Lemma terminal_status (status : option string) :
  polling.terminal status = true <->
  status = Some "failure" \/ status = Some "done".
Proof.
  unfold polling.terminal. destruct status as [s |].
  - split.
    + intros H. apply andb_true_iff in H as [_ H].
      apply orb_true_iff in H as [H | H]; apply String.eqb_eq in H;
        subst; auto.
    + intros [H | H]; injection H as ->; reflexivity.
  - split; [discriminate | intros [H | H]; discriminate].
Qed.

Lemma or_default_nonempty (s : option string) (d : string) :
  d <> "" -> or_default s d <> "".
Proof.
  intros Hd. unfold or_default. destruct s as [s |]; [| exact Hd].
  destruct (s =? "") eqn:E; [exact Hd | now apply String.eqb_neq].
Qed.

(** The loop does not make up a result type: what it returns is the one it
    started with or one read off a reply, never empty in the latter case. *)
Lemma pollForJobCompletion_while_resultType (jobId : string) (fuel : nat)
    (status : option string) (result resultType : string) (tr tr' : Trace)
    (out : polling.JobOutcome) :
  resultType <> "" ->
  polling.pollForJobCompletion_while client clusterId jobId fuel
    status result resultType tr = (Some (Normal out), tr') ->
  polling.resultType out <> "".
Proof.
  revert status result resultType tr.
  induction fuel as [| fuel IH]; intros status result resultType tr Hne;
    cbn [polling.pollForJobCompletion_while];
    destruct (polling.terminal status);
    try (intros H; injection H as <- <-; exact Hne);
    try discriminate.
  unfold request, sleep, emit.
  destruct (on_getJob client tr (getJob clusterId jobId 20)) as [body |];
    [| discriminate].
  apply IH. now apply or_default_nonempty.
Qed.

(** X11. What [createAndPollJob] returns has status [done] or [failure],
    spelled so, and a result type that is not empty: a reply without one
    reads as a rejection. *)
Theorem createAndPollJob_outcome_shape (toolName : string) (input : JsValue)
    (fuel : nat) (tr tr' : Trace) (out : polling.JobOutcome) :
  polling.createAndPollJob client clusterId toolName input fuel tr
  = (Some (Normal out), tr') ->
  (polling.status out = Some "failure" \/ polling.status out = Some "done")
  /\ polling.resultType out <> "".
Proof.
  unfold polling.createAndPollJob, polling.pollForJobCompletion, request.
  destruct (on_createJob client tr _) as [created |]; [| discriminate].
  intros H. split.
  - apply terminal_status.
    now apply pollForJobCompletion_while_returns in H.
  - apply pollForJobCompletion_while_resultType in H; [exact H |].
    now apply or_default_nonempty.
Qed.


End CreateAndPollMore.

(** ** More of the constructor *)

Lemma split_pieces_no_sep (sep : ascii) (s piece : string) :
  In piece (split sep s) ->
  forall c, In c (list_ascii_of_string piece) -> c <> sep.
Proof.
  revert piece. induction s as [| a rest IH]; intros piece; simpl.
  - intros [<- | []] c [].
  - destruct (Ascii.eqb a sep) eqn:E.
    + intros [<- | Hin]; [intros c [] | now apply IH].
    + destruct (split sep rest) as [| first others] eqn:Hs.
      * intros [<- | []] c [<- | []]. now apply Ascii.eqb_neq.
      * intros [<- | Hin].
        -- intros c [<- | Hc]; [now apply Ascii.eqb_neq |].
           apply (IH first); [now left | exact Hc].
        -- apply IH. now right.
Qed.

Section ConstructorMore.

Variable lib : Imports.
Variable connect : string -> list (string * string) -> JSONRPCClient.

(** X13. A credential the constructor accepts reads [sk_<cluster>_<rest>],
    with a cluster id that is not empty and has no underscore and a rest that
    is not empty and does not begin with one; the cluster id is what
    [getClusterId()] returns, and the credential is kept as it came. *)
Theorem constructor_credential_shape (options : option agentrpc.Options)
    (self : agentrpc.AgentRPC) :
  agentrpc.constructor lib connect options = Normal self ->
  exists rest,
    agentrpc.field options agentrpc.options_apiSecret
    = Some ("sk_" ++ agentrpc.getClusterId self ++ "_" ++ rest)%string
    /\ agentrpc.apiSecret self
       = ("sk_" ++ agentrpc.getClusterId self ++ "_" ++ rest)%string
    /\ agentrpc.getClusterId self <> ""
    /\ no_underscore (agentrpc.getClusterId self)
    /\ exists c tail, rest = String c tail /\ c <> "_"%char.
Proof.
  unfold agentrpc.constructor.
  destruct (agentrpc.field options agentrpc.options_apiSecret)
    as [secret |]; [| discriminate].
  destruct (secret =? ""); [discriminate |].
  fold (credential_refused secret).
  destruct (credential_refused secret) eqn:E; [discriminate |].
  apply credential_refused_iff in E.
  destruct (_ && _); [discriminate |].
  intros H. injection H as <-. unfold agentrpc.getClusterId. simpl.
  destruct E as (cluster & third & others & Hsplit & Hcluster & Hthird).
  pose proof (join_split secret) as Hjoin. rewrite Hsplit in Hjoin.
  rewrite Hsplit. simpl.
  apply String.eqb_neq in Hcluster. rewrite Hcluster.
  apply String.eqb_neq in Hcluster.
  exists (join "_" (third :: others)).
  assert (Hsecret : secret
                    = ("sk_" ++ cluster ++ "_"
                       ++ join "_" (third :: others))%string).
  { rewrite <- Hjoin. reflexivity. }
  repeat split; try exact Hcluster.
  - f_equal. exact Hsecret.
  - exact Hsecret.
  - intros c Hc. apply (split_pieces_no_sep "_" secret cluster); [| exact Hc].
    rewrite Hsplit. right. now left.
  - destruct third as [| c tail]; [now contradiction Hthird |].
    assert (Hc : c <> "_"%char).
    { apply (split_pieces_no_sep "_" secret (String c tail)).
      - rewrite Hsplit. right. right. now left.
      - now left. }
    destruct others; simpl; eauto.
Qed.

(** X14. A client the constructor returns starts with no tool and no agent,
    on the default endpoint unless another was given, which the constructor
    takes only together with an [mcpUuid]: without one it throws.  An
    endpoint given as the empty string counts as not given. *)
Theorem constructor_initial_state (options : option agentrpc.Options) :
  (forall self,
      agentrpc.constructor lib connect options = Normal self ->
      agentrpc.toolsRegistry self = []
      /\ agentrpc.pollingAgents self = []
      /\ agentrpc.endpoint self
         = or_default (agentrpc.field options agentrpc.options_endpoint)
             "https://api.agentrpc.com"
      /\ (agentrpc.endpoint self <> "https://api.agentrpc.com" ->
          truthy (agentrpc.field options agentrpc.options_mcpUuid) = true))
  /\ (forall secret custom,
        agentrpc.field options agentrpc.options_apiSecret = Some secret ->
        well_formed_credential secret ->
        agentrpc.field options agentrpc.options_endpoint = Some custom ->
        custom <> "" ->
        custom <> "https://api.agentrpc.com" ->
        truthy (agentrpc.field options agentrpc.options_mcpUuid) = false ->
        agentrpc.constructor lib connect options
        = Abrupt (AgentRPCError
                    "mcpUuid is required when a custom endpoint is provided.")).
Proof.
  unfold agentrpc.constructor. split.
  - intros self.
    destruct (agentrpc.field options agentrpc.options_apiSecret)
      as [secret |]; [| discriminate].
    destruct (secret =? ""); [discriminate |].
    destruct (_ || _); [discriminate |].
    destruct (negb (or_default _ _ =? _)) eqn:Hcustom;
      destruct (truthy (agentrpc.field options agentrpc.options_mcpUuid))
        eqn:Huuid; simpl; try discriminate;
      intros H; injection H as <-; simpl; repeat split; auto.
    + intros Hne. apply negb_false_iff, String.eqb_eq in Hcustom.
      contradiction.
  - intros secret custom -> Hok -> Hne Hcustom Huuid.
    assert (Hsecret : (secret =? "") = false).
    { destruct Hok as (c & r & rest & H & _).
      apply String.eqb_neq. intros ->. discriminate. }
    rewrite Hsecret. fold (credential_refused secret).
    apply credential_refused_iff in Hok. rewrite Hok.
    unfold or_default. apply String.eqb_neq in Hne, Hcustom.
    now rewrite Hne, Hcustom, Huuid.
Qed.

End ConstructorMore.

(** ** How [processCall] completes *)

Section Completion.

Variable lib : Imports.
Variable self : polling.PollingAgent.
Variable call : JobMessage.
Variable tr : Trace.

(** For a job the agent has a tool for, the run ends with the
    [createJobResult] request, and completes as that request does. *)
Lemma processCall_ends_with_report (registration : ToolRegistrationInput) :
  registration_of self call = Some registration ->
  exists before r,
    polling.processCall lib self call tr
    = (on_createJobResult (polling.jsonRpcClient self) (tr ++ before) r,
       tr ++ before ++ [EvRequest r])
    /\ requests before = []
    /\ report_target r = Some (id call).
Proof.
  intros Hfind. unfold registration_of in Hfind.
  unfold polling.processCall. rewrite Hfind.
  unfold bind, try_catch, polling.validate, polling.executeFn, polling.log,
    debug, emit, request, bind, throw, ret.
  simpl.
  destruct (negb (typeof (input call) =? "object")
            || Array_isArray (input call) || is_null (input call)); simpl.
  - rewrite <- !app_assoc. simpl.
    eexists [_; _; _; _]. eexists. split; [reflexivity |]. split; reflexivity.
  - destruct (validateFunctionArgs lib (schema registration) (input call))
      as [e |].
    + destruct e as [m | m | m | errors | v]; simpl;
        try (rewrite <- !app_assoc; simpl;
             eexists [_; _; _; _]; eexists;
             split; [reflexivity | split; reflexivity]).
      pose proof
        (forEach_log
           (fun error =>
              ("Function input does not match schema",
               [("function", LogJs (JStr (function call)));
                ("path", LogJs (JArr (issue_path error)));
                ("error", LogJs (JStr (issue_message error)))]))
           errors) as Hlogs.
      simpl in Hlogs. unfold polling.log, debug, emit in Hlogs.
      rewrite Hlogs. simpl.
      match goal with
      | |- context [map ?f errors] =>
          destruct (requests_logs f errors) as (Hr & _ & _);
          [intros x; eauto |];
          exists ([EvLog "agentrpc:client:polling-agent" "Executing job"
                     [("id", LogJs (JStr (id call)));
                      ("function", LogJs (JStr (function call)));
                      ("registered", LogJs (JBool true))];
                   EvLog "agentrpc:client:polling-agent" "Executing fn"
                     [("id", LogJs (JStr (id call)));
                      ("function", LogJs (JStr (function call)));
                      ("registeredFn", LogHandler (handler registration));
                      ("args", LogJs (input call))];
                   EvValidate (schema registration) (input call)]
                  ++ map f errors
                  ++ [EvLog "agentrpc:client:polling-agent"
                        "Persisting job result"
                        [("id", LogJs (JStr (id call)));
                         ("function", LogJs (JStr (function call)));
                         ("resultType", LogResultType rejection);
                         ("functionExecutionTime", LogJs (JNum 0))]])
      end.
      eexists. split.
      { rewrite <- !app_assoc. reflexivity. }
      split; [| reflexivity].
      rewrite !requests_app, Hr. reflexivity.
    + destruct (handler registration) as [f | v]; simpl.
      * destruct (f [input call]) as [v | e]; simpl;
          rewrite <- !app_assoc; simpl;
          eexists [_; _; _; _; _]; eexists;
          (split; [reflexivity | split; reflexivity]).
      * rewrite <- !app_assoc. simpl.
        eexists [_; _; _; _]. eexists.
        split; [reflexivity | split; reflexivity].
Qed.

(** X15. [processCall] rejects only when the posting of the result is
    rejected, and then with that error: for a job the agent has a tool for
    it completes as its [createJobResult] request does, whatever the input
    was and whatever the handler did, and for any other job it returns. *)
Theorem processCall_completes_as_report :
  (forall registration,
      registration_of self call = Some registration ->
      exists before r,
        snd (polling.processCall lib self call tr)
        = tr ++ before ++ [EvRequest r]
        /\ requests before = []
        /\ report_target r = Some (id call)
        /\ fst (polling.processCall lib self call tr)
           = on_createJobResult (polling.jsonRpcClient self) (tr ++ before) r)
  /\ (registration_of self call = None ->
      fst (polling.processCall lib self call tr) = Normal tt).
Proof.
  split.
  - intros registration Hfind.
    destruct (processCall_ends_with_report registration Hfind)
      as (before & r & Hrun & Hr & Htarget).
    exists before, r. rewrite Hrun. auto.
  - intros Hfind. unfold registration_of in Hfind.
    unfold polling.processCall. now rewrite Hfind.
Qed.

End Completion.

(** ** The further properties on the deployment *)


(** [wave] registered on the client that has [hello]. *)
Lemma register_succeeds_iff_witness :
  (exists s', agentrpc.register scenario.wave (sample.registered, [])
              = (Normal tt, s'))
  /\ agentrpc.own
       (agentrpc.toolsRegistry
          (fst (snd (agentrpc.register scenario.wave (sample.registered, [])))))
       "hello"
     = Some sample.hello.
Proof.
  pose proof (register_succeeds_iff sample.registered [] scenario.wave)
    as [Hiff Hrun].
  split.
  - apply Hiff. repeat split.
  - destruct (Hrun _ eq_refl) as (_ & _ & Hother).
    rewrite Hother; [reflexivity | discriminate].
Defined.

(** [shout], whose handler is a string, on a fresh client. *)
Lemma register_failure_changes_nothing_witness :
  agentrpc.register scenario.shout (sample.fresh, [])
  = (Abrupt (AgentRPCError "handler must be a function."), (sample.fresh, [])).
Proof.
  apply (proj2 (register_failure_changes_nothing sample.fresh []
                  scenario.shout));
    [reflexivity | reflexivity | discriminate].
Defined.

(** A tool named [toString] on a fresh client. *)
Lemma register_refuses_prototype_names_witness :
  agentrpc.register scenario.toString (sample.fresh, [])
  = (Abrupt (AgentRPCError "Tool name 'toString' is already registered."),
     (sample.fresh, [])).
Proof.
  apply (register_refuses_prototype_names sample.fresh [] scenario.toString).
  simpl. tauto.
Defined.

Lemma sample_registry_ok : registry_ok (agentrpc.toolsRegistry sample.registered).
Proof.
  repeat split; simpl; repeat constructor; simpl; tauto.
Qed.

(** [wave] registered after [hello]: the registry is still well formed. *)
Lemma register_keeps_registry_ok_witness :
  registry_ok
    (agentrpc.toolsRegistry
       (fst (snd (agentrpc.register scenario.wave (sample.registered, [])))))
  /\ agentrpc.pollingAgents
       (fst (snd (agentrpc.register scenario.wave (sample.registered, []))))
     = [].
Proof.
  apply (register_keeps_registry_ok sample.registered [] scenario.wave
           (Normal tt) _ sample_registry_ok eq_refl).
Defined.


(** The agent of the sample client dispatches [hello] and nothing else. *)
Lemma listen_dispatches_by_registry_witness :
  exists agent,
    agentrpc.pollingAgents (fst sample.listening) = [agent]
    /\ polling.clusterId agent = "cluster"
    /\ registration_of agent (mkJob "job-1" "hello" sample.ada)
       = Some sample.hello
    /\ registration_of agent (mkJob "job-2" "goodbye" sample.ada) = None.
Proof.
  destruct (listen_dispatches_by_registry sample.lib sample.registered
              (fst sample.listening) [] (snd sample.listening) (Normal tt)
              sample_registry_ok eq_refl eq_refl)
    as (agent & Hagents & Hcluster & Hdispatch).
  exists agent. repeat split; try assumption; apply Hdispatch.
Defined.

(** [unlisten] on the sample client once it listens, and [listen] again. *)
Lemma unlisten_stops_and_keeps_agents_witness :
  exists self',
    agentrpc.unlisten sample.listening
    = (Normal tt, (self', snd sample.listening ++ [stop_entry]))
    /\ agentrpc.listen sample.lib (self', [])
       = (Abrupt (AgentRPCError "Tools already listening"), (self', [])).
Proof.
  destruct (unlisten_stops_and_keeps_agents sample.lib (fst sample.listening)
              (snd sample.listening))
    as (self' & Hrun & _ & _ & Hlisten).
  exists self'. split; [exact Hrun |].
  apply Hlisten. discriminate.
Defined.

(** The agent without a cluster id, for four passes. *)
Lemma runLoop_without_clusterId_witness :
  requests (snd (snd (polling.runLoop sample.lib sample.stopped 4
                        (sample.nameless, []))))
  = []
  /\ fst (polling.runLoop sample.lib (fun _ => false) 4 (sample.nameless, []))
     = None.
Proof.
  pose proof (runLoop_without_clusterId sample.lib sample.stopped
                sample.nameless [] eq_refl) as [Hsilent _].
  pose proof (runLoop_without_clusterId sample.lib (fun _ => false)
                sample.nameless [] eq_refl) as [_ Hrun].
  split.
  - apply (Hsilent 4%nat).
  - rewrite Hrun; reflexivity.
Defined.

(** A pass of the sample agent after two failures. *)
Lemma loopBody_recovery_witness :
  polling.loopBody sample.lib (fun _ => false) 2 (sample.agent, [])
  = (Normal 0%nat,
     (sample.agent,
      [EvRequest (listJobs "cluster" "hello" "pending" true 10 20);
       recovery_entry 2;
       EvSleep 0])).
Proof.
  apply (loopBody_recovery sample.lib (fun _ => false) sample.agent [] _ 2
           eq_refl).
Defined.

(** The job of the sample coordinator, done when first asked about. *)
Lemma createAndPollJob_outcome_shape_witness :
  (Some "done" = Some "failure" \/ Some "done" = Some "done")
  /\ "resolution" <> "".
Proof.
  apply (createAndPollJob_outcome_shape sample.client "cluster" "hello"
           sample.ada 1 [] _
           {| polling.status := Some "done";
              polling.result := "Hello Ada";
              polling.resultType := "resolution" |} eq_refl).
Defined.


(** The sample credential. *)
Lemma constructor_credential_shape_witness :
  exists rest,
    agentrpc.options_apiSecret sample.options
    = Some ("sk_" ++ "cluster" ++ "_" ++ rest)%string
    /\ no_underscore "cluster".
Proof.
  destruct (constructor_credential_shape sample.lib (fun _ _ => sample.client)
              (Some sample.options) sample.fresh eq_refl)
    as (rest & Hsecret & _ & _ & Hclean & _).
  exists rest. split; assumption.
Defined.

(** The sample options, and options with an endpoint and no [mcpUuid]. *)
Lemma constructor_initial_state_witness :
  agentrpc.toolsRegistry sample.fresh = []
  /\ agentrpc.constructor sample.lib (fun _ _ => sample.client)
       (Some scenario.self_hosted)
     = Abrupt (AgentRPCError
                 "mcpUuid is required when a custom endpoint is provided.").
Proof.
  pose proof (constructor_initial_state sample.lib (fun _ _ => sample.client)
                (Some sample.options)) as [Hfresh _].
  pose proof (constructor_initial_state sample.lib (fun _ _ => sample.client)
                (Some scenario.self_hosted)) as [_ Hcustom].
  split.
  - apply (Hfresh sample.fresh eq_refl).
  - apply (Hcustom "sk_cluster_s3cret" "https://rpc.example.org");
      try reflexivity; try discriminate.
    exists "cluster", "s3cret", []. repeat split; discriminate.
Defined.

(** The last job of the batch: its report is rejected, and so is the call;
    the job nobody has a tool for returns. *)
Lemma processCall_completes_as_report_witness :
  (exists before r,
      snd (polling.processCall sample.lib scenario.busy_agent
             (mkJob "job-3" "hello" JNull) [])
      = [] ++ before ++ [EvRequest r]
      /\ requests before = []
      /\ report_target r = Some "job-3"
      /\ fst (polling.processCall sample.lib scenario.busy_agent
                (mkJob "job-3" "hello" JNull) [])
         = on_createJobResult scenario.busy_client ([] ++ before) r)
  /\ fst (polling.processCall sample.lib scenario.busy_agent
            (mkJob "job-2" "goodbye" sample.ada) [])
     = Normal tt.
Proof.
  pose proof (processCall_completes_as_report sample.lib scenario.busy_agent
                (mkJob "job-3" "hello" JNull) []) as [Hreport _].
  pose proof (processCall_completes_as_report sample.lib scenario.busy_agent
                (mkJob "job-2" "goodbye" sample.ada) []) as [_ Hdrop].
  split.
  - apply (Hreport sample.hello eq_refl).
  - apply Hdrop. reflexivity.
Defined.
